(** * The Criteo bidder adapter (modules/criteoBidAdapter.js)

    A shallow embedding of the adapter's entry points and helpers, and the
    properties of them that the specification states.

    JavaScript values are untyped, so the embedding works over a small
    universe of values ([value]); code that can raise returns a [result];
    code that touches the page (local storage, the [Criteo] global, the
    native-slot table, the logger, [eval], promises and timers) runs in a
    state-and-exception monad over an explicit [State]. *)

From Stdlib Require Import List String Ascii ZArith NArith Bool Lia.
From Stdlib Require Import PrimFloat DecimalString.
Import ListNotations.

#[local] Set Warnings "-register-all".
#[local] Open Scope string_scope.

(** ** JavaScript values *)

(** Plain data as the adapter meets it: what the framework passes in, what
    [JSON.parse] produced from the ad server's reply, and opaque function
    handles (a publisher's [nativeCallback]).  Numbers are IEEE doubles, as in
    the language.  An object is the ordered list of its own properties. *)
Inductive value : Type :=
| VUndef
| VNull
| VBool (b : bool)
| VNum (f : float)
| VStr (s : string)
| VObj (fields : list (string * value))
| VArr (items : list value)
| VFun (handle : nat).

(** What is thrown: a TypeError by a property read on [undefined] or [null]
    and by the call of a missing method, an InvalidCharacterError by [atob]
    on text that is not base64, and anything else by a script under [eval]. *)
Inductive exn : Type :=
| TypeError
| InvalidCharacterError
| ScriptError.

Inductive result (A : Type) : Type :=
| Ok (a : A)
| Throw (e : exn).
Arguments Ok {A} a.
Arguments Throw {A} e.

Definition rbind {A B : Type} (r : result A) (k : A -> result B) : result B :=
  match r with
  | Ok a => k a
  | Throw e => Throw e
  end.

Declare Scope result_scope.
Delimit Scope result_scope with res.
Notation "x <- c ;; k" := (rbind c (fun x => k))
  (at level 61, c at next level, right associativity) : result_scope.

(** ToBoolean. *)
Definition truthy (v : value) : bool :=
  match v with
  | VUndef | VNull => false
  | VBool b => b
  | VNum f => negb (PrimFloat.is_zero f || PrimFloat.is_nan f)
  | VStr s => negb (String.eqb s "")
  | VObj _ | VArr _ | VFun _ => true
  end.

(** [a || b] on values whose evaluation cannot raise. *)
Definition js_or (a b : value) : value := if truthy a then a else b.

Fixpoint lookup (k : string) (fields : list (string * value)) : option value :=
  match fields with
  | [] => None
  | (k', v) :: rest => if String.eqb k k' then Some v else lookup k rest
  end.

(** Does the object have the own property [k]? *)
Definition declares (o : value) (k : string) : bool :=
  match o with
  | VObj fields => match lookup k fields with Some _ => true | None => false end
  | _ => false
  end.

(** [o.k] for the property names the adapter reads, none of which is
    inherited from a built-in prototype: reading a property of [undefined] or
    [null] raises a TypeError, an own property gives its value, anything else
    gives [undefined]. *)
Definition get (o : value) (k : string) : result value :=
  match o with
  | VUndef | VNull => Throw TypeError
  | VObj fields => Ok (match lookup k fields with Some v => v | None => VUndef end)
  | _ => Ok VUndef
  end.

(** [o.k = v]: replaces the property in place, or adds it last. *)
Fixpoint set_field (k : string) (v : value) (fields : list (string * value))
  : list (string * value) :=
  match fields with
  | [] => [(k, v)]
  | (k', v') :: rest =>
      if String.eqb k k' then (k, v) :: rest else (k', v') :: set_field k v rest
  end.

(** [a === b] for operands that live in two different object graphs (a
    SlotRequest of the batch against the parsed reply): primitives compare by
    value, numbers as IEEE doubles; objects compare by reference, and two
    graphs share none. *)
Definition strict_equals (a b : value) : bool :=
  match a, b with
  | VUndef, VUndef => true
  | VNull, VNull => true
  | VBool x, VBool y => Bool.eqb x y
  | VNum x, VNum y => PrimFloat.eqb x y
  | VStr x, VStr y => String.eqb x y
  | _, _ => false
  end.

(** ** Constants of the module *)

Definition ADAPTER_VERSION : N := 5.
Definition BIDDER_CODE : string := "criteo".
Definition CDB_ENDPOINT : string := "//bidder.criteo.com/cdb".
Definition CRITEO_VENDOR_ID : N := 91.
Definition INTEGRATION_MODES : list (string * N) := [("amp", 1%N)].
Definition PROFILE_ID : N := 207.
Definition PUBLISHER_TAG_URL : string := "//static.criteo.net/js/ld/publishertag.prebid.js".

(** Decimal text of an integer constant ([String(207)] is ["207"]). *)
Definition dec (n : N) : string := NilEmpty.string_of_uint (N.to_uint n).

(** ** The validity predicate *)

(** [!!(bid && bid.params && (bid.params.zoneId || bid.params.networkId))] *)
Definition isBidRequestValid (bid : value) : result bool :=
  (if truthy bid then
     params <- get bid "params" ;;
     if truthy params then
       zoneId <- get params "zoneId" ;;
       if truthy zoneId then Ok true
       else
         networkId <- get params "networkId" ;;
         Ok (truthy networkId)
     else Ok false
   else Ok false)%res.

(** ** The page around the adapter *)

(** A string on which the adapter runs [indexOf], [substr] and [trim] (the
    cached script) is the sequence of its UTF-16 code units. *)
Definition jsstring : Type := list N.

Definition units (s : string) : jsstring :=
  map N_of_ascii (list_ascii_of_string s).

(** The vendor's richer adapter, when the publisher tag has installed it: the
    object at [Criteo.PubTag.Adapters.Prebid].  Its methods are the vendor's;
    they are taken as given functions. *)
Record AdapterInstance : Type := {
  adapter_buildCdbUrl : value;
  adapter_buildCdbRequest : value;
  adapter_interpretResponse : value -> value -> list value;
}.

Record PrebidAdapter : Type := {
  new_Prebid : N -> N -> list value -> value -> AdapterInstance;
  GetAdapter : value -> option AdapterInstance;
}.

Record CriteoGlobal : Type := {
  usePrebidEvents : option bool;
  PubTag_Adapters_Prebid : option PrebidAdapter;
}.

(** What scripts on the page can read and write. *)
Record Heap : Type := {
  Criteo : option CriteoGlobal;
  criteo_fast_bid : option jsstring;
  criteo_prebid_native_slots : option (list (string * value));
}.

(** A SubtleCrypto implementation, seen through the two calls made on it:
    whether importing a JWK key for an algorithm succeeds, and how the
    verification of a signature over some bytes settles ([Some b]: with the
    verdict [b]; [None]: with an error). *)
Record SubtleCrypto : Type := {
  importKey : value -> value -> bool;
  verify : value -> list N -> list N -> option bool;
}.

Record Crypto : Type := {
  subtle : option SubtleCrypto;
  webkitSubtle : option SubtleCrypto;
}.

(** What the browser and the framework provide. [getTopWindowUrl] is the
    helper of src/utils and [search] is [parse(url).search] of src/url, the
    query string as an object; [random_cb] is the integer that
    [Math.floor(Math.random() * 99999999999)] draws; [render] is the
    language's ToString on numbers, objects, arrays and functions;
    [inherited_text] is the text of a member of [Object.prototype];
    [window_msCrypto] is IE11's [window.msCrypto.subtle]; [atob] fails on text
    that is not base64; [eval] runs a script against the page. *)
Record Env : Type := {
  getTopWindowUrl : string;
  search : list (string * value);
  random_cb : N;
  render : value -> string;
  inherited_text : string -> string;
  window_crypto : option Crypto;
  window_msCrypto : option SubtleCrypto;
  atob : jsstring -> option jsstring;
  eval : jsstring -> Heap -> result unit * Heap;
}.

(** What the adapter does to the page, in order: its log messages, the
    removal of the cache entry, the scripts it evaluates, the script loads it
    asks of [loadExternalScript] (src/adloader), and the timeouts it passes
    on to the delegate. *)
Inductive Event : Type :=
| LogWarn (msg : string)
| LogInfo (msg : string)
| RemoveItem (key : string)
| EvalScript (code : jsstring)
| LoadExternalScript (url code : string)
| HandleBidTimeout (auctionId : value).

(** The one callback handed to the validation: the closure of
    [tryGetCriteoFastBid] over the cached script. *)
Inductive Callback : Type :=
| UseFastBid (fastBid : jsstring).

(** Work the adapter has left with the event loop: a handler waiting for the
    key import or for the verification to settle, and the timer that reloads
    the publisher tag. *)
Inductive Job : Type :=
| ImportKeySettled (imported : bool) (verifier : SubtleCrypto) (algo : value)
    (hash code : jsstring) (callback : Callback)
| VerifySettled (outcome : option bool) (callback : Callback)
| ReloadPublisherTag (delay : value).

Record State : Type := {
  heap : Heap;
  trace : list Event;
  jobs : list Job;
}.

Definition M (A : Type) : Type := State -> result A * State.

Definition ret {A : Type} (a : A) : M A := fun st => (Ok a, st).

Definition throw {A : Type} (e : exn) : M A := fun st => (Throw e, st).

Definition bind {A B : Type} (m : M A) (k : A -> M B) : M B :=
  fun st =>
    match m st with
    | (Ok a, st') => k a st'
    | (Throw e, st') => (Throw e, st')
    end.

Definition lift {A : Type} (r : result A) : M A := fun st => (r, st).

Definition try_catch {A : Type} (m : M A) (handler : exn -> M A) : M A :=
  fun st =>
    match m st with
    | (Ok a, st') => (Ok a, st')
    | (Throw e, st') => handler e st'
    end.

Declare Scope js_scope.
Delimit Scope js_scope with js.
Notation "x <- c ;; k" := (bind c (fun x => k))
  (at level 61, c at next level, right associativity) : js_scope.
Notation "c ;;; k" := (bind c (fun _ => k))
  (at level 61, right associativity) : js_scope.

Definition emit (e : Event) : M unit :=
  fun st => (Ok tt, {| heap := heap st; trace := trace st ++ [e]; jobs := jobs st |}).

Definition enqueue (j : Job) : M unit :=
  fun st => (Ok tt, {| heap := heap st; trace := trace st; jobs := jobs st ++ [j] |}).

Definition read_heap : M Heap := fun st => (Ok (heap st), st).

Definition write_heap (h : Heap) : M unit :=
  fun st => (Ok tt, {| heap := h; trace := trace st; jobs := jobs st |}).

(** Modelled from the spec: [utils.logWarn] and [utils.logInfo] of src/utils,
    the warnings and notices of the specification's error handling; each
    leaves its message in the trace. *)
Definition logWarn (msg : string) : M unit := emit (LogWarn msg).
Definition logInfo (msg : string) : M unit := emit (LogInfo msg).

(** ** Helpers of the language *)

(** [xs.forEach], [xs.map] and [xs.find] exist on arrays only: on
    [undefined] and [null] the property read raises, on any other plain datum
    the method is missing and the call raises. *)
Definition as_array (v : value) : result (list value) :=
  match v with
  | VArr items => Ok items
  | _ => Throw TypeError
  end.

(** Modelled from the spec: [utils.isArray] of src/utils, which answers
    whether its argument is list-typed. *)
Definition isArray (v : value) : bool :=
  match v with
  | VArr _ => true
  | _ => false
  end.

(** [v[i]] for a literal index. *)
Definition get_index (v : value) (i : nat) : result value :=
  match v with
  | VUndef | VNull => Throw TypeError
  | VArr items => Ok (nth i items VUndef)
  | VObj fields =>
      Ok (match lookup (dec (N.of_nat i)) fields with Some x => x | None => VUndef end)
  | VStr s =>
      Ok (match String.get i s with Some c => VStr (String c EmptyString) | None => VUndef end)
  | _ => Ok VUndef
  end.

(** A loop over an array whose body can raise: the first exception ends it. *)
Fixpoint foldM {A S : Type} (body : S -> A -> result S) (xs : list A) (s : S)
  : result S :=
  match xs with
  | [] => Ok s
  | x :: rest => (s' <- body s x ;; foldM body rest s')%res
  end.

Fixpoint mapM {A B : Type} (f : A -> result B) (xs : list A) : result (list B) :=
  match xs with
  | [] => Ok []
  | x :: rest => (y <- f x ;; ys <- mapM f rest ;; Ok (y :: ys))%res
  end.

(** [xs.find(p)]: the first element on which [p] holds, [undefined] when
    there is none. *)
Fixpoint find_first (p : value -> result bool) (xs : list value) : result value :=
  match xs with
  | [] => Ok VUndef
  | x :: rest => (hit <- p x ;; if hit then Ok x else find_first p rest)%res
  end.

(** The names every object literal inherits from [Object.prototype]. *)
Definition Object_prototype_names : list string :=
  [ "constructor"; "__defineGetter__"; "__defineSetter__"; "hasOwnProperty";
    "__lookupGetter__"; "__lookupSetter__"; "isPrototypeOf";
    "propertyIsEnumerable"; "toString"; "valueOf"; "__proto__";
    "toLocaleString" ].

Definition mem_string (k : string) (names : list string) : bool :=
  existsb (String.eqb k) names.

Fixpoint lookup_code (k : string) (table : list (string * N)) : option N :=
  match table with
  | [] => None
  | (k', n) :: rest => if String.eqb k k' then Some n else lookup_code k rest
  end.

(** JavaScript's substring test, [s.includes(pat)]. *)
Fixpoint includes (pat s : string) : bool :=
  String.prefix pat s ||
  match s with
  | EmptyString => false
  | String _ rest => includes pat rest
  end.

(** ** The request builder *)

Record CriteoContext : Type := {
  ctx_url : string;
  ctx_debug : bool;
  ctx_noLog : bool;
  ctx_integrationMode : value;
}.

Definition set_integrationMode (context : CriteoContext) (mode : value) : CriteoContext :=
  {| ctx_url := ctx_url context;
     ctx_debug := ctx_debug context;
     ctx_noLog := ctx_noLog context;
     ctx_integrationMode := mode |}.

Section Builder.

Variable env : Env.

(** ToString: written out on the primitives whose text is fixed, the
    engine's elsewhere. *)
Definition ToString (v : value) : string :=
  match v with
  | VStr s => s
  | VUndef => "undefined"
  | VNull => "null"
  | VBool true => "true"
  | VBool false => "false"
  | _ => render env v
  end.

(** [queryString[k] === '1'] *)
Definition query_flag (k : string) : bool :=
  match lookup k (search env) with
  | Some v => strict_equals v (VStr "1")
  | None => false
  end.

Definition buildContext (bidRequests : list value) : result CriteoContext :=
  let url := getTopWindowUrl env in
  let context :=
    {| ctx_url := url;
       ctx_debug := query_flag "pbt_debug";
       ctx_noLog := query_flag "pbt_nolog";
       ctx_integrationMode := VUndef |} in
  foldM
    (fun context bidRequest =>
       (params <- get bidRequest "params" ;;
        mode <- get params "integrationMode" ;;
        if truthy mode then Ok (set_integrationMode context mode)
        else Ok context)%res)
    bidRequests context.

(** [k in INTEGRATION_MODES]: own and inherited properties alike. *)
Definition in_INTEGRATION_MODES (k : string) : bool :=
  match lookup_code k INTEGRATION_MODES with
  | Some _ => true
  | None => mem_string k Object_prototype_names
  end.

(** The text of [INTEGRATION_MODES[k]] for a [k] that is in it. *)
Definition INTEGRATION_MODES_text (k : string) : string :=
  match lookup_code k INTEGRATION_MODES with
  | Some code => dec code
  | None => inherited_text env k
  end.

Definition buildCdbUrl (context : CriteoContext) : string :=
  let url := CDB_ENDPOINT in
  let url := url ++ "?profileId=" ++ dec PROFILE_ID in
  let url := url ++ "&av=" ++ dec ADAPTER_VERSION in
  let url := url ++ "&cb=" ++ dec (random_cb env) in
  let mode := ToString (ctx_integrationMode context) in
  let url :=
    if in_INTEGRATION_MODES mode then url ++ "&im=" ++ INTEGRATION_MODES_text mode
    else url in
  let url := if ctx_debug context then url ++ "&debug=1" else url in
  let url := if ctx_noLog context then url ++ "&nolog=1" else url in
  url.

(** [size[0] + 'x' + size[1]] *)
Definition size_text (size : value) : result value :=
  (w <- get_index size 0 ;;
   h <- get_index size 1 ;;
   Ok (VStr (ToString w ++ "x" ++ ToString h)))%res.

(** The body of the [map] callback of [buildCdbRequest], the captured
    [networkId] made explicit. *)
Definition buildSlot (networkId : value) (bidRequest : value)
  : result (value * value) :=
  (params <- get bidRequest "params" ;;
   declared <- get params "networkId" ;;
   let networkId := js_or declared networkId in
   impid <- get bidRequest "adUnitCode" ;;
   transactionid <- get bidRequest "transactionId" ;;
   auctionId <- get bidRequest "auctionId" ;;
   sizes <- get bidRequest "sizes" ;;
   sizes <- as_array sizes ;;
   sizes <- mapM size_text sizes ;;
   let slot :=
     [ ("impid", impid);
       ("transactionid", transactionid);
       ("auctionId", auctionId);
       ("sizes", VArr sizes) ] in
   zoneId <- get params "zoneId" ;;
   let slot := if truthy zoneId then set_field "zoneid" zoneId slot else slot in
   publisherSubId <- get params "publisherSubId" ;;
   let slot :=
     if truthy publisherSubId then set_field "publishersubid" publisherSubId slot
     else slot in
   nativeCallback <- get params "nativeCallback" ;;
   let slot :=
     if truthy nativeCallback then set_field "native" (VBool true) slot else slot in
   Ok (networkId, VObj slot))%res.

(** [bidRequests.map(...)] with the [networkId] it leaves behind. *)
Fixpoint buildSlots (networkId : value) (bidRequests : list value)
  : result (value * list value) :=
  match bidRequests with
  | [] => Ok (networkId, [])
  | bidRequest :: rest =>
      (step <- buildSlot networkId bidRequest ;;
       let '(networkId, slot) := step in
       more <- buildSlots networkId rest ;;
       let '(networkId, slots) := more in
       Ok (networkId, slot :: slots))%res
  end.

(** The consent block. The vendor's entry is read under the key
    [CRITEO_VENDOR_ID.toString(10)], the text of an index: the own property
    of that name on an object, the element at that index on an array, the
    character at that index on a string. *)
Definition gdprConsent_block (gdprConsent : value) : result value :=
  (gdprApplies <- get gdprConsent "gdprApplies" ;;
   consentString <- get gdprConsent "consentString" ;;
   vendorData <- get gdprConsent "vendorData" ;;
   consentGiven <-
     (if truthy vendorData then
        vendorConsents <- get vendorData "vendorConsents" ;;
        if truthy vendorConsents then
          consent <- get_index vendorConsents (N.to_nat CRITEO_VENDOR_ID) ;;
          Ok (truthy consent)
        else Ok false
      else Ok false) ;;
   Ok (VObj [ ("gdprApplies", VBool (truthy gdprApplies));
              ("consentData", consentString);
              ("consentGiven", VBool consentGiven) ]))%res.

Definition buildCdbRequest (context : CriteoContext) (bidRequests : list value)
    (bidderRequest : value) : result value :=
  (built <- buildSlots VUndef bidRequests ;;
   let '(networkId, slots) := built in
   let publisher := [ ("url", VStr (ctx_url context)) ] in
   let publisher :=
     if truthy networkId then set_field "networkid" networkId publisher
     else publisher in
   let request := [ ("publisher", VObj publisher); ("slots", VArr slots) ] in
   if truthy bidderRequest then
     gdprConsent <- get bidderRequest "gdprConsent" ;;
     if truthy gdprConsent then
       block <- gdprConsent_block gdprConsent ;;
       Ok (VObj (set_field "gdprConsent" block request))
     else Ok (VObj request)
   else Ok (VObj request))%res.

End Builder.

(** ** Operations on the cached script's text *)

Definition newline : N := 10.

(** [s.indexOf(c)]: the first position of [c], or -1. *)
Fixpoint indexOf_from (c : N) (s : jsstring) (i : Z) : Z :=
  match s with
  | [] => (-1)%Z
  | x :: rest => if N.eqb x c then i else indexOf_from c rest (i + 1)%Z
  end.

Definition indexOf (c : N) (s : jsstring) : Z := indexOf_from c s 0%Z.

(** [s.substr(start, length)], [length] omitted when [None]: a negative
    [start] counts from the end, and both are clamped to the string. *)
Definition substr (s : jsstring) (start : Z) (length : option Z) : jsstring :=
  let size := Z.of_nat (List.length s) in
  let intStart := if (start <? 0)%Z then Z.max (size + start) 0 else Z.min start size in
  let intLength :=
    match length with
    | None => size
    | Some l => Z.min (Z.max l 0) size
    end in
  let intEnd := Z.min (intStart + intLength) size in
  if (intStart >=? intEnd)%Z then []
  else firstn (Z.to_nat (intEnd - intStart)) (skipn (Z.to_nat intStart) s).

(** White space and line terminators, the code units [trim] strips. *)
Definition is_whitespace (c : N) : bool :=
  existsb (N.eqb c)
    [ 9; 10; 11; 12; 13; 32; 160; 5760; 8232; 8233; 8239; 8287; 12288; 65279 ]%N
  || ((8192 <=? c) && (c <=? 8202))%N.

Fixpoint trimStart (s : jsstring) : jsstring :=
  match s with
  | [] => []
  | c :: rest => if is_whitespace c then trimStart rest else s
  end.

Definition trim (s : jsstring) : jsstring := rev (trimStart (rev (trimStart s))).

Fixpoint jsstring_eqb (a b : jsstring) : bool :=
  match a, b with
  | [], [] => true
  | x :: a', y :: b' => N.eqb x y && jsstring_eqb a' b'
  | _, _ => false
  end.

(** [str2ab]: one byte per code unit, as a [Uint8Array] stores it. *)
Definition str2ab (str : jsstring) : list N := map (fun c => (c mod 256)%N) str.

Definition FAST_BID_PUBKEY : value :=
  VObj [ ("kty", VStr "RSA");
         ("n", VStr "ztQYwCE5BU7T9CDM5he6rKoabstXRmkzx54zFPZkWbK530dwtLBDeaWBMxHBUT55CYyboR_EZ4efghPi3CoNGfGWezpjko9P6p2EwGArtHEeS4slhu_SpSIFMjG6fdrpRoNuIAMhq1Z-Pr_-HOd1pThFKeGFr2_NhtAg-TXAzaU");
         ("e", VStr "AQAB");
         ("alg", VStr "RS256");
         ("use", VStr "sig") ].

Definition FAST_BID_ALGO : value :=
  VObj [ ("name", VStr "RSASSA-PKCS1-v1_5"); ("hash", VStr "SHA-256") ].

(** The first line of the cached script, as [validateFastBid] reads it. *)
Definition firstLine_of (fastBid : jsstring) : jsstring :=
  trim (substr fastBid 0 (Some (indexOf newline fastBid))).

(** [firstLine.substr(0, 9) !== '// Hash: '], negated. *)
Definition has_hash_header (fastBid : jsstring) : bool :=
  jsstring_eqb (substr (firstLine_of fastBid) 0 (Some 9%Z)) (units "// Hash: ").

(** ** Cache validation and execution *)

Section FastBid.

Variable env : Env.

(** [localStorage.removeItem(key)] for the one key the adapter uses. *)
Definition removeItem (key : string) : M unit :=
  (emit (RemoveItem key) ;;;
   h <- read_heap ;;
   write_heap {| Criteo := Criteo h;
                 criteo_fast_bid := None;
                 criteo_prebid_native_slots := criteo_prebid_native_slots h |})%js.

(** [eval(code)]: whatever the script does to the page, and whatever it
    throws. *)
Definition eval_script (code : jsstring) : M unit :=
  (emit (EvalScript code) ;;;
   fun st =>
     let '(r, h) := eval env code (heap st) in
     (r, {| heap := h; trace := trace st; jobs := jobs st |}))%js.

(** The arrow function [(valid) => {...}] of [tryGetCriteoFastBid]. *)
Definition call (callback : Callback) (valid : option bool) : M unit :=
  match callback with
  | UseFastBid fastBid =>
      match valid with
      | Some false =>
          (logWarn "Invalid Criteo FastBid found" ;;;
           removeItem "criteo_fast_bid")%js
      | _ =>
          (logInfo "Using Criteo FastBid" ;;;
           eval_script fastBid)%js
      end
  end.

(** [window.crypto && (window.crypto.subtle || window.crypto.webkitSubtle)] *)
Definition standardSubtle : option SubtleCrypto :=
  match window_crypto env with
  | Some crypto =>
      match subtle crypto with
      | Some s => Some s
      | None => webkitSubtle crypto
      end
  | None => None
  end.

(** The synchronous part of [cryptoVerify]; what its handlers do once the
    key import and the verification settle is [run_job] below. The IE11
    branch registers the same handlers on events instead of promises. *)
Definition cryptoVerify (algo key : value) (hash code : jsstring)
    (callback : Callback) : M unit :=
  match standardSubtle with
  | Some verifier =>
      match window_crypto env with
      | Some {| subtle := Some importer |} =>
          enqueue (ImportKeySettled (importKey importer key algo) verifier algo
                     hash code callback)
      | _ => throw TypeError
      end
  | None =>
      match window_msCrypto env with
      | Some ms =>
          enqueue (ImportKeySettled (importKey ms key algo) ms algo hash code callback)
      | None => call callback None
      end
  end.

Definition validateFastBid (fastBid : jsstring) (callback : Callback) : M unit :=
  let firstLineEnd := indexOf newline fastBid in
  let firstLine := trim (substr fastBid 0 (Some firstLineEnd)) in
  ((if jsstring_eqb (substr firstLine 0 (Some 9%Z)) (units "// Hash: ") then ret tt
    else
      logWarn "No hash found in FastBid" ;;;
      call callback (Some false)) ;;;
   let fileEncryptedHash := substr firstLine 9 None in
   let publisherTag := substr fastBid (firstLineEnd + 1) None in
   try_catch
     (cryptoVerify FAST_BID_ALGO FAST_BID_PUBKEY fileEncryptedHash publisherTag callback)
     (fun _ =>
        logWarn "Failed to verify Criteo FastBid" ;;;
        call callback None))%js.

Definition tryGetCriteoFastBid : M unit :=
  try_catch
    (h <- read_heap ;;
     match criteo_fast_bid h with
     | Some fastBid => validateFastBid fastBid (UseFastBid fastBid)
     | None => ret tt
     end)%js
    (fun _ => ret tt).

(** A handler run by the event loop. *)
Definition run_job (j : Job) : M unit :=
  match j with
  | ImportKeySettled imported verifier algo hash code callback =>
      if imported then
        match atob env hash with
        | Some signature =>
            enqueue (VerifySettled (verify verifier algo (str2ab signature) (str2ab code))
                       callback)
        | None => throw InvalidCharacterError
        end
      else call callback None
  | VerifySettled outcome callback =>
      match outcome with
      | Some verdict => call callback (Some verdict)
      | None => call callback (Some false)
      end
  | ReloadPublisherTag _ =>
      emit (LoadExternalScript PUBLISHER_TAG_URL BIDDER_CODE)
  end.

(** One turn of the event loop: the oldest job runs to completion; what it
    throws goes nowhere. *)
Definition run_next (st : State) : State :=
  match jobs st with
  | [] => st
  | j :: rest =>
      snd (run_job j {| heap := heap st; trace := trace st; jobs := rest |})
  end.

Fixpoint drain (turns : nat) (st : State) : State :=
  match turns with
  | O => st
  | S n => drain n (run_next st)
  end.

End FastBid.

(** ** The entry points *)

Definition quote : string := String (ascii_of_nat 34) EmptyString.
Definition line_break : string := String (ascii_of_nat 10) EmptyString.

Section Spec.

Variable env : Env.

(** The delegate, when the whole chain [Criteo.PubTag.Adapters.Prebid] is
    there. *)
Definition delegate (h : Heap) : option PrebidAdapter :=
  match Criteo h with
  | Some c => PubTag_Adapters_Prebid c
  | None => None
  end.

Definition publisherTagAvailable : M bool :=
  (h <- read_heap ;;
   ret (match delegate h with Some _ => true | None => false end))%js.

(** Registers the callback and the payload under the bid's id in the
    page's table, and gives the markup that looks them up from a frame. *)
Definition createNativeAd (id payload callback : value) : M value :=
  (h <- read_heap ;;
   let slots :=
     match criteo_prebid_native_slots h with
     | Some table => table
     | None => []
     end in
   let entry := VObj [ ("callback", callback); ("payload", payload) ] in
   write_heap {| Criteo := Criteo h;
                 criteo_fast_bid := criteo_fast_bid h;
                 criteo_prebid_native_slots :=
                   Some (set_field (ToString env id) entry slots) |} ;;;
   ret (VStr
          ("<script type=" ++ quote ++ "text/javascript" ++ quote ++ ">" ++ line_break ++
           "    var win = window;" ++ line_break ++
           "    for (var i = 0; i < 10; ++i) {" ++ line_break ++
           "      win = win.parent;" ++ line_break ++
           "      if (win.criteo_prebid_native_slots) {" ++ line_break ++
           "        var responseSlot = win.criteo_prebid_native_slots[" ++ quote ++
             ToString env id ++ quote ++ "];" ++ line_break ++
           "        responseSlot.callback(responseSlot.payload);" ++ line_break ++
           "        break;" ++ line_break ++
           "      }" ++ line_break ++
           "    }" ++ line_break ++
           "  </script>")))%js.

(** [b => b.adUnitCode === slot.impid && b.params.zoneId === slot.zoneid] *)
Definition correlates (slot b : value) : result bool :=
  (adUnitCode <- get b "adUnitCode" ;;
   impid <- get slot "impid" ;;
   if strict_equals adUnitCode impid then
     params <- get b "params" ;;
     zoneId <- get params "zoneId" ;;
     zoneid <- get slot "zoneid" ;;
     Ok (strict_equals zoneId zoneid)
   else Ok false)%res.

(** The body of the [forEach] callback of [interpretResponse]: the bid made
    from one slot of the reply. *)
Definition interpretSlot (request slot : value) : M value :=
  (bidRequests <- lift (get request "bidRequests") ;;
   bidRequests <- lift (as_array bidRequests) ;;
   bidRequest <- lift (find_first (correlates slot) bidRequests) ;;
   bidId <- lift (get bidRequest "bidId") ;;
   cpm <- lift (get slot "cpm") ;;
   currency <- lift (get slot "currency") ;;
   ttl <- lift (get slot "ttl") ;;
   width <- lift (get slot "width") ;;
   height <- lift (get slot "height") ;;
   let bid :=
     [ ("requestId", bidId);
       ("cpm", cpm);
       ("currency", currency);
       ("netRevenue", VBool true);
       ("ttl", js_or ttl (VNum 60));
       ("creativeId", bidId);
       ("width", width);
       ("height", height) ] in
   native <- lift (get slot "native") ;;
   ad <-
     (if truthy native then
        params <- lift (get bidRequest "params") ;;
        nativeCallback <- lift (get params "nativeCallback") ;;
        createNativeAd bidId native nativeCallback
      else lift (get slot "creative")) ;;
   ret (VObj (set_field "ad" ad bid)))%js.

(** [body.slots.forEach(...)], the bids pushed in order. *)
Fixpoint interpretSlots (request : value) (slots : list value) : M (list value) :=
  match slots with
  | [] => ret []
  | slot :: rest =>
      (bid <- interpretSlot request slot ;;
       bids <- interpretSlots request rest ;;
       ret (bid :: bids))%js
  end.

(** [response.body || response] *)
Definition body_of (response : value) : result value :=
  (body <- get response "body" ;;
   Ok (js_or body response))%res.

(** The adapter's own interpretation, used when no delegate answers. *)
Definition interpretLocally (body request : value) : M (list value) :=
  (if truthy body then
     slots <- lift (get body "slots") ;;
     if truthy slots && isArray slots then
       match slots with
       | VArr items => interpretSlots request items
       | _ => ret []
       end
     else ret []
   else ret [])%js.

Definition interpretResponse (response request : value) : M (list value) :=
  (body <- lift (body_of response) ;;
   h <- read_heap ;;
   match delegate h with
   | Some Prebid =>
       match GetAdapter Prebid request with
       | Some adapter => ret (adapter_interpretResponse adapter body request)
       | None => interpretLocally body request
       end
   | None => interpretLocally body request
   end)%js.

(** [window.Criteo = window.Criteo || {}; window.Criteo.usePrebidEvents = false] *)
Definition disable_prebid_events : M unit :=
  (h <- read_heap ;;
   let adapters :=
     match Criteo h with
     | Some c => PubTag_Adapters_Prebid c
     | None => None
     end in
   write_heap {| Criteo := Some {| usePrebidEvents := Some false;
                                   PubTag_Adapters_Prebid := adapters |};
                 criteo_fast_bid := criteo_fast_bid h;
                 criteo_prebid_native_slots := criteo_prebid_native_slots h |})%js.

(** The first block of [buildRequests]: with no delegate on the page, try
    the cached script and schedule the reload of the publisher tag. *)
Definition prepare (bidderRequest : value) : M unit :=
  (available <- publisherTagAvailable ;;
   if available then ret tt
   else
     disable_prebid_events ;;;
     tryGetCriteoFastBid env ;;;
     timeout <- lift (get bidderRequest "timeout") ;;
     enqueue (ReloadPublisherTag timeout))%js.

(** [if (data) return { method: 'POST', url, data, bidRequests }]; falling
    off the end returns [undefined]. *)
Definition serverRequest (url data : value) (bidRequests : list value) : value :=
  if truthy data then
    VObj [ ("method", VStr "POST");
           ("url", url);
           ("data", data);
           ("bidRequests", VArr bidRequests) ]
  else VUndef.

Definition buildRequests (bidRequests : list value) (bidderRequest : value) : M value :=
  (prepare bidderRequest ;;;
   h <- read_heap ;;
   match delegate h with
   | Some Prebid =>
       let adapter := new_Prebid Prebid PROFILE_ID ADAPTER_VERSION bidRequests bidderRequest in
       let url := adapter_buildCdbUrl adapter in
       let data := adapter_buildCdbRequest adapter in
       ret (serverRequest url data bidRequests)
   | None =>
       context <- lift (buildContext env bidRequests) ;;
       let url := buildCdbUrl env context in
       data <- lift (buildCdbRequest env context bidRequests bidderRequest) ;;
       ret (serverRequest (VStr url) data bidRequests)
   end)%js.

Definition onTimeout (timeoutData : value) : M unit :=
  (h <- read_heap ;;
   match delegate h with
   | Some Prebid =>
       auctionId <- lift (get timeoutData "auctionId") ;;
       match GetAdapter Prebid auctionId with
       | Some _ => emit (HandleBidTimeout auctionId)
       | None => throw TypeError
       end
   | None => ret tt
   end)%js.

End Spec.

(** ** Sample pages and inputs *)

(** A script that runs and leaves the page as it is. *)
Definition quiet_eval (code : jsstring) (h : Heap) : result unit * Heap := (Ok tt, h).

(** The text of the few numbers the samples use. *)
Definition sample_render (v : value) : string :=
  match v with
  | VNum f =>
      if PrimFloat.eqb f 300 then "300"
      else if PrimFloat.eqb f 250 then "250"
      else if PrimFloat.eqb f 7 then "7"
      else "0"
  | VArr _ => EmptyString
  | VFun _ => "function () { [native code] }"
  | _ => "[object Object]"
  end.

(** A browser without any crypto library. *)
Definition plain_env : Env :=
  {| getTopWindowUrl := "https://publisher.example/page";
     search := [];
     random_cb := 4815162342;
     render := sample_render;
     inherited_text := fun name => "function " ++ name ++ "() { [native code] }";
     window_crypto := None;
     window_msCrypto := None;
     atob := fun _ => None;
     eval := quiet_eval |}.

Definition empty_heap : Heap :=
  {| Criteo := None; criteo_fast_bid := None; criteo_prebid_native_slots := None |}.

Definition fresh (h : Heap) : State := {| heap := h; trace := []; jobs := [] |}.

Definition cached (fastBid : jsstring) : Heap :=
  {| Criteo := None; criteo_fast_bid := Some fastBid; criteo_prebid_native_slots := None |}.

(** A cached script with a hash header, and one without. *)
Definition signed_script : jsstring :=
  (units "// Hash: c2lnbmF0dXJl" ++ [newline] ++ units "window.Criteo = {};")%list.

Definition unsigned_script : jsstring :=
  (units "// tampered" ++ [newline] ++ units "window.Criteo = {};")%list.

(** ** Vocabulary of the specification *)

Definition nullish (v : value) : bool :=
  match v with
  | VUndef | VNull => true
  | _ => false
  end.

(** Objects in the language's sense: everything that is not a primitive. *)
Definition is_object (v : value) : bool :=
  match v with
  | VObj _ | VArr _ | VFun _ => true
  | _ => false
  end.

(** A property read that cannot fail: [undefined] where [get] would raise. *)
Definition field (o : value) (k : string) : value :=
  match get o k with
  | Ok v => v
  | Throw _ => VUndef
  end.

(** [bidRequest.params.k], and the same only when [params] is an object that
    has the property. *)
Definition param (bidRequest : value) (k : string) : value :=
  field (field bidRequest "params") k.

Definition declared (bidRequest : value) (k : string) : option value :=
  match field bidRequest "params" with
  | VObj fields => lookup k fields
  | _ => None
  end.

(** The last value of a list that is truthy, [undefined] when none is. *)
Definition last_truthy (vs : list value) : value :=
  match find truthy (rev vs) with
  | Some v => v
  | None => VUndef
  end.

(** The last value of a list of optional values that is there at all. *)
Definition last_present (vs : list (option value)) : option value :=
  match find (fun o => match o with Some _ => true | None => false end) (rev vs) with
  | Some o => o
  | None => None
  end.

(** A SlotRequest the builder can serialise: it has [params], and its
    [sizes] is an array of size pairs. *)
Definition has_params (bidRequest : value) : bool :=
  negb (nullish (field bidRequest "params")).

Definition well_formed (bidRequest : value) : bool :=
  has_params bidRequest &&
  match field bidRequest "sizes" with
  | VArr sizes => forallb (fun size => negb (nullish size)) sizes
  | _ => false
  end.

(** The mode names of the whitelist proper. *)
Definition whitelisted (mode : value) : bool :=
  match mode with
  | VStr name =>
      match lookup_code name INTEGRATION_MODES with
      | Some _ => true
      | None => false
      end
  | _ => false
  end.

(** An integration mode the batch may carry without meeting the members
    that [INTEGRATION_MODES] inherits: nothing, or a string that names none. *)
Definition plain_mode (mode : value) : bool :=
  negb (truthy mode) ||
  match mode with
  | VStr name => negb (mem_string name Object_prototype_names)
  | _ => false
  end.

(** [publisher.networkid] of a built payload, when the field is there. *)
Definition networkid_of (request : value) : option value :=
  match field request "publisher" with
  | VObj publisher => lookup "networkid" publisher
  | _ => None
  end.

(** The environments in which the verdict on a cached script cannot be
    reached: no crypto library at all, a library whose use raises
    ([window.crypto.subtle] missing beside [webkitSubtle]), or a library
    that fails to import the public key. *)
Inductive Indeterminate (env : Env) : Prop :=
| NoCryptoLibrary :
    standardSubtle env = None ->
    window_msCrypto env = None ->
    Indeterminate env
| AttemptThrows (crypto : Crypto) (s : SubtleCrypto) :
    window_crypto env = Some crypto ->
    subtle crypto = None ->
    webkitSubtle crypto = Some s ->
    Indeterminate env
| KeyImportFails (crypto : Crypto) (s : SubtleCrypto) :
    window_crypto env = Some crypto ->
    subtle crypto = Some s ->
    importKey s FAST_BID_PUBKEY FAST_BID_ALGO = false ->
    Indeterminate env
| KeyImportFailsIE (ms : SubtleCrypto) :
    standardSubtle env = None ->
    window_msCrypto env = Some ms ->
    importKey ms FAST_BID_PUBKEY FAST_BID_ALGO = false ->
    Indeterminate env.

(** The page once [tryGetCriteoFastBid] has run on a quiet page and the
    event loop has taken [turns] turns. *)
Definition after_fast_bid (env : Env) (h : Heap) (turns : nat) : State :=
  drain env turns (snd (tryGetCriteoFastBid env (fresh h))).

Definition executed (code : jsstring) (st : State) : Prop :=
  In (EvalScript code) (trace st).

Definition evicted (st : State) : Prop :=
  In (RemoveItem "criteo_fast_bid") (trace st).

(** What the adapter leaves in the trace when it runs a cached script
    without a verdict: the script is logged as used and handed to [eval];
    this comes after the warning of a failed attempt when the attempt itself
    raised, and it happens a second time, after that warning, when it was the
    script that raised within the attempt. *)
Definition runs_unverified (fastBid : jsstring) (events : list Event) : Prop :=
  let used := [ LogInfo "Using Criteo FastBid"; EvalScript fastBid ] in
  let failed := LogWarn "Failed to verify Criteo FastBid" in
  events = used \/
  events = failed :: used \/
  events = (used ++ failed :: used)%list.

(** A computation that only ever adds to the trace. *)
Definition appends {A : Type} (m : M A) : Prop :=
  forall st, exists more, trace (snd (m st)) = (trace st ++ more)%list.


(** What [interpretSlot] makes of a slot and of the SlotRequest found for
    it. *)
Definition bid_of (slot bidRequest ad : value) : value :=
  VObj [ ("requestId", field bidRequest "bidId");
         ("cpm", field slot "cpm");
         ("currency", field slot "currency");
         ("netRevenue", VBool true);
         ("ttl", js_or (field slot "ttl") (VNum 60));
         ("creativeId", field bidRequest "bidId");
         ("width", field slot "width");
         ("height", field slot "height");
         ("ad", ad) ].

(** The bid answers a SlotRequest of the batch: both of its ids are that
    SlotRequest's [bidId]. *)
Definition answers (request bid : value) : Prop :=
  field bid "creativeId" = field bid "requestId" /\
  exists batch bidRequest,
    get request "bidRequests" = Ok (VArr batch) /\
    In bidRequest batch /\
    field bid "requestId" = field bidRequest "bidId".





(** The slot has a SlotRequest of the batch that correlates with it. *)
Definition matched (slot : value) (batch : list value) : Prop :=
  exists bidRequest,
    find_first (correlates slot) batch = Ok bidRequest /\ nullish bidRequest = false.

(** A body from which no slot list can be read. *)
Definition malformed (body : value) : Prop :=
  is_object body = false \/ isArray (field body "slots") = false.

(** The fixed start of every request URL, up to the cache buster. *)
Definition url_head : string := "//bidder.criteo.com/cdb?profileId=207&av=5&cb=".

(** The optional flags of the URL, in the order they are appended. *)
Definition url_flags (env : Env) (context : CriteoContext) : string :=
  ((if in_INTEGRATION_MODES (ToString env (ctx_integrationMode context))
    then "&im=" ++ INTEGRATION_MODES_text env (ToString env (ctx_integrationMode context))
    else "") ++
   (if ctx_debug context then "&debug=1" else "") ++
   (if ctx_noLog context then "&nolog=1" else ""))%string.

(** [acc = v || acc]: a later truthy value replaces the one kept so far. *)
Definition pick (acc v : value) : value := if truthy v then v else acc.

(** ** The sentences of the specification that the code does not bear out,
       as they are worded *)

(** Validity as the presence of the properties, whatever their values. *)
Definition valid_iff_declared (bid : value) : Prop :=
  isBidRequestValid bid = Ok true <->
  exists fields,
    get bid "params" = Ok (VObj fields) /\
    (declares (VObj fields) "zoneId" = true \/ declares (VObj fields) "networkId" = true).

(** Some SlotRequest declares the mode 'amp', and none after it declares a
    mode outside the whitelist. *)
Definition amp_not_overridden (batch : list value) : Prop :=
  exists before bidRequest after,
    batch = (before ++ bidRequest :: after)%list /\
    declared bidRequest "integrationMode" = Some (VStr "amp") /\
    Forall (fun later =>
              forall mode, declared later "integrationMode" = Some mode ->
                           whitelisted mode = true) after.

Definition im_iff_amp_not_overridden (env : Env) (batch : list value) : Prop :=
  forall context,
    buildContext env batch = Ok context ->
    (includes "im=1" (buildCdbUrl env context) = true <-> amp_not_overridden batch).

(** The network id of the last SlotRequest that declares one. *)
Definition networkid_is_last_declared (env : Env) (context : CriteoContext)
    (batch : list value) (bidderRequest : value) : Prop :=
  forall request,
    buildCdbRequest env context batch bidderRequest = Ok request ->
    networkid_of request = last_present (map (fun b => declared b "networkId") batch).

(** An empty batch yields nothing. *)
Definition empty_batch_yields_nothing (env : Env) (st : State) (bidderRequest : value)
  : Prop :=
  fst (buildRequests env [] bidderRequest st) = Ok VUndef.

(** An indeterminate verdict leaves the cached script unexecuted and in
    place. *)
Definition indeterminate_is_skipped (env : Env) (fastBid : jsstring) : Prop :=
  Indeterminate env ->
  has_hash_header fastBid = true ->
  forall turns,
    ~ executed fastBid (after_fast_bid env (cached fastBid) turns) /\
    ~ evicted (after_fast_bid env (cached fastBid) turns).

(** A malformed body gives no bids and raises nothing, in both shapes in
    which the interpreter takes a reply: bare, and wrapped under [body]. *)
Definition malformed_never_raises (env : Env) (request : value) (st : State)
    (body : value) : Prop :=
  malformed body ->
  fst (interpretResponse env body request st) = Ok [] /\
  fst (interpretResponse env (VObj [ ("body", body) ]) request st) = Ok [].


(** ** Sample batches and replies *)

Definition zero_zone_bid : value :=
  VObj [ ("params", VObj [ ("zoneId", VNum 0) ]) ].

Definition slot_request (adUnitCode bidId : string) (params : list (string * value))
  : value :=
  VObj [ ("adUnitCode", VStr adUnitCode);
         ("bidId", VStr bidId);
         ("params", VObj params);
         ("sizes", VArr [ VArr [ VNum 300; VNum 250 ] ]) ].

Definition amp_then_blank : list value :=
  [ slot_request "div1" "bid-1" [ ("zoneId", VNum 7); ("integrationMode", VStr "amp") ];
    slot_request "div2" "bid-2" [ ("zoneId", VNum 7); ("integrationMode", VStr "") ] ].

Definition network_then_zero : list value :=
  [ slot_request "div1" "bid-1" [ ("networkId", VNum 42) ];
    slot_request "div2" "bid-2" [ ("networkId", VNum 0) ] ].

Definition only_second_has_network : list value :=
  [ slot_request "div1" "bid-1" [ ("zoneId", VNum 7) ];
    slot_request "div2" "bid-2" [ ("networkId", VNum 42) ] ].

Definition sample_context : CriteoContext :=
  {| ctx_url := "https://publisher.example/page";
     ctx_debug := false;
     ctx_noLog := false;
     ctx_integrationMode := VUndef |}.

Definition sample_bidderRequest : value :=
  VObj [ ("timeout", VNum 3000) ].

(** The request and the reply of the specification's example. *)
Definition div1_request : value :=
  VObj [ ("bidRequests",
          VArr [ VObj [ ("adUnitCode", VStr "div1");
                        ("params", VObj [ ("zoneId", VNum 7) ]) ] ]) ].

Definition div1_slot : value :=
  VObj [ ("impid", VStr "div1");
         ("zoneid", VNum 7);
         ("cpm", VNum 1.5);
         ("currency", VStr "USD");
         ("width", VNum 300);
         ("height", VNum 250) ].

Definition div1_response : value :=
  VObj [ ("body", VObj [ ("slots", VArr [ div1_slot ]) ]) ].


(** The batch of one SlotRequest for [div1] in zone 7, under the id
    [bid-1], and the bid the example's reply gets for it. *)
Definition bid1_request : value :=
  VObj [ ("bidRequests", VArr [ slot_request "div1" "bid-1" [ ("zoneId", VNum 7) ] ]) ].

Definition bid1_bid : value :=
  VObj [ ("requestId", VStr "bid-1");
         ("cpm", VNum 1.5);
         ("currency", VStr "USD");
         ("netRevenue", VBool true);
         ("ttl", VNum 60);
         ("creativeId", VStr "bid-1");
         ("width", VNum 300);
         ("height", VNum 250);
         ("ad", VUndef) ].

(** A reply whose first slot answers no SlotRequest of the batch. *)
Definition stray_response : value :=
  VObj [ ("body",
          VObj [ ("slots",
                  VArr [ VObj [ ("impid", VStr "div9");
                                ("zoneid", VNum 7);
                                ("cpm", VNum 2);
                                ("currency", VStr "USD");
                                ("width", VNum 300);
                                ("height", VNum 250) ];
                         div1_slot ]) ]) ].

(** A reply that is no object, wrapped as the framework hands it over. *)
Definition garbled_response : value :=
  VObj [ ("body", VStr "<html>Bad Gateway</html>") ].

(** ** More vocabulary and samples *)

(** The crypto library that [cryptoVerify] ends up using: the standard one
    when [window.crypto.subtle] is there, IE11's when there is no standard
    one at all. *)
Inductive Verifier (env : Env) (s : SubtleCrypto) : Prop :=
| StandardVerifier (crypto : Crypto) :
    window_crypto env = Some crypto ->
    subtle crypto = Some s ->
    Verifier env s
| IEVerifier :
    standardSubtle env = None ->
    window_msCrypto env = Some s ->
    Verifier env s.

(** [fileEncryptedHash] and [publisherTag] of [validateFastBid]. *)
Definition fileEncryptedHash_of (fastBid : jsstring) : jsstring :=
  substr (firstLine_of fastBid) 9 None.

Definition publisherTag_of (fastBid : jsstring) : jsstring :=
  substr fastBid (indexOf newline fastBid + 1) None.

(** How the verification of a cached script settles on a library, once the
    hash has been decoded to [signature]. *)
Definition verdict_on (s : SubtleCrypto) (signature fastBid : jsstring) : option bool :=
  verify s FAST_BID_ALGO (str2ab signature) (str2ab (publisherTag_of fastBid)).

(** A library that imports every key and gives every signature the same
    verdict, in a browser whose [atob] hands the text back. *)
Definition constant_subtle (outcome : option bool) : SubtleCrypto :=
  {| importKey := fun _ _ => true; verify := fun _ _ _ => outcome |}.

Definition verifying_env (outcome : option bool) : Env :=
  {| getTopWindowUrl := "https://publisher.example/page";
     search := [];
     random_cb := 4815162342;
     render := sample_render;
     inherited_text := fun name => "function " ++ name ++ "() { [native code] }";
     window_crypto := Some {| subtle := Some (constant_subtle outcome);
                              webkitSubtle := None |};
     window_msCrypto := None;
     atob := fun text => Some text;
     eval := quiet_eval |}.

(** A script that always throws, and a browser without crypto library in
    which every script does. *)
Definition throwing_eval (code : jsstring) (h : Heap) : result unit * Heap :=
  (Throw ScriptError, h).

Definition throwing_env : Env :=
  {| getTopWindowUrl := "https://publisher.example/page";
     search := [];
     random_cb := 4815162342;
     render := sample_render;
     inherited_text := fun name => "function " ++ name ++ "() { [native code] }";
     window_crypto := None;
     window_msCrypto := None;
     atob := fun _ => None;
     eval := throwing_eval |}.

(** A computation that leaves at most [n] new jobs with the event loop, all
    of the kind [P], and removes none. *)
Definition queues_at_most {A : Type} (n : nat) (P : Job -> Prop) (m : M A) : Prop :=
  forall st, exists pending,
    jobs (snd (m st)) = (jobs st ++ pending)%list /\
    (List.length pending <= n)%nat /\
    Forall P pending.

(** The two kinds of verification job. *)
Definition awaits_import (j : Job) : Prop :=
  match j with
  | ImportKeySettled _ _ _ _ _ _ => True
  | _ => False
  end.

Definition awaits_verdict (j : Job) : Prop :=
  match j with
  | VerifySettled _ _ => True
  | _ => False
  end.

(** A browser whose crypto library works and whose [atob] rejects every
    text. *)
Definition undecoding_env : Env :=
  {| getTopWindowUrl := "https://publisher.example/page";
     search := [];
     random_cb := 4815162342;
     render := sample_render;
     inherited_text := fun name => "function " ++ name ++ "() { [native code] }";
     window_crypto := Some {| subtle := Some (constant_subtle (Some true));
                              webkitSubtle := None |};
     window_msCrypto := None;
     atob := fun _ => None;
     eval := quiet_eval |}.

(** A delegate whose adapter has nothing to send and reads no bids, one
    that knows no adapter for any request, and pages that carry them. *)
Definition idle_adapter : AdapterInstance :=
  {| adapter_buildCdbUrl := VStr "//bidder.criteo.com/cdb";
     adapter_buildCdbRequest := VUndef;
     adapter_interpretResponse := fun _ _ => [] |}.

Definition idle_delegate : PrebidAdapter :=
  {| new_Prebid := fun _ _ _ _ => idle_adapter;
     GetAdapter := fun _ => Some idle_adapter |}.

Definition forgetful_delegate : PrebidAdapter :=
  {| new_Prebid := fun _ _ _ _ => idle_adapter;
     GetAdapter := fun _ => None |}.

Definition page_with (Prebid : PrebidAdapter) : Heap :=
  {| Criteo := Some {| usePrebidEvents := None; PubTag_Adapters_Prebid := Some Prebid |};
     criteo_fast_bid := Some signed_script;
     criteo_prebid_native_slots := None |}.

(** A verifier that looks at the first byte of the script only, and the
    signed sample with the first code unit of its script raised by 256. *)
Definition first_byte_subtle : SubtleCrypto :=
  {| importKey := fun _ _ => true;
     verify := fun _ _ bytes => Some (N.eqb (hd 0%N bytes) 119) |}.

Definition widened_script : jsstring :=
  (units "// Hash: c2lnbmF0dXJl" ++ [newline] ++ 375%N :: units "indow.Criteo = {};")%list.

(** [v[i]] where the read cannot fail. *)
Definition at_index (v : value) (i : nat) : value :=
  match get_index v i with
  | Ok x => x
  | Throw _ => VUndef
  end.

(** The slot entry of the payload that stands for a SlotRequest: the ids and
    sizes always, the zone, the sub-publisher and the native flag only when
    the SlotRequest's parameter is truthy. *)
Definition slot_entry (env : Env) (bidRequest : value) : value :=
  VObj ([ ("impid", field bidRequest "adUnitCode");
          ("transactionid", field bidRequest "transactionId");
          ("auctionId", field bidRequest "auctionId");
          ("sizes",
           VArr (map (fun size =>
                        VStr (ToString env (at_index size 0) ++ "x" ++
                              ToString env (at_index size 1)))
                     (match field bidRequest "sizes" with
                      | VArr sizes => sizes
                      | _ => []
                      end))) ] ++
        (if truthy (param bidRequest "zoneId")
         then [ ("zoneid", param bidRequest "zoneId") ] else []) ++
        (if truthy (param bidRequest "publisherSubId")
         then [ ("publishersubid", param bidRequest "publisherSubId") ] else []) ++
        (if truthy (param bidRequest "nativeCallback")
         then [ ("native", VBool true) ] else []))%list.

(** The consent block of the payload for a consent object. *)
Definition consent_entry (gdprConsent : value) : value :=
  VObj [ ("gdprApplies", VBool (truthy (field gdprConsent "gdprApplies")));
         ("consentData", field gdprConsent "consentString");
         ("consentGiven",
          VBool (truthy (field gdprConsent "vendorData") &&
                 truthy (field (field gdprConsent "vendorData") "vendorConsents") &&
                 truthy (at_index (field (field gdprConsent "vendorData") "vendorConsents")
                                  91))) ].

(** A bidder-level request with consent data in which the vendor map is
    missing. *)
Definition consenting_bidderRequest : value :=
  VObj [ ("timeout", VNum 3000);
         ("gdprConsent",
          VObj [ ("gdprApplies", VBool true);
                 ("consentString", VStr "BOJ/P2HOJ/P2HABABMAAAAAZ+A==") ]) ].

(** The same with the vendors' consents as an array in which every vendor
    up to 91 has consented. *)
Definition array_consent_bidderRequest : value :=
  VObj [ ("timeout", VNum 3000);
         ("gdprConsent",
          VObj [ ("gdprApplies", VBool true);
                 ("consentString", VStr "BOJ/P2HOJ/P2HABABMAAAAAZ+A==");
                 ("vendorData",
                  VObj [ ("vendorConsents", VArr (repeat (VBool true) 92)) ]) ]) ].

(** A page opened with both of the adapter's query flags set. *)
Definition flagged_env : Env :=
  {| getTopWindowUrl := "https://publisher.example/page?pbt_debug=1&pbt_nolog=1";
     search := [ ("pbt_debug", VStr "1"); ("pbt_nolog", VStr "1") ];
     random_cb := 4815162342;
     render := sample_render;
     inherited_text := fun name => "function " ++ name ++ "() { [native code] }";
     window_crypto := None;
     window_msCrypto := None;
     atob := fun _ => None;
     eval := quiet_eval |}.

(** The reply that sends the slots of a built request straight back. *)
Definition echo_of (request : value) : value :=
  VObj [ ("body", VObj [ ("slots", field (field request "data") "slots") ]) ].

(** A SlotRequest whose correlation key survives the trip: its placement id
    equals itself under [===], and its zone id is truthy and equals itself,
    or is not there at all. *)
Definition echoable (bidRequest : value) : bool :=
  strict_equals (field bidRequest "adUnitCode") (field bidRequest "adUnitCode") &&
  match param bidRequest "zoneId" with
  | VUndef => true
  | zoneId => truthy zoneId && strict_equals zoneId zoneId
  end.

(** SlotRequests with the same placement and zone carry the same bid id. *)
Definition unambiguous (batch : list value) : Prop :=
  forall b b',
    In b batch -> In b' batch ->
    strict_equals (field b' "adUnitCode") (field b "adUnitCode") = true ->
    strict_equals (param b' "zoneId") (param b "zoneId") = true ->
    field b' "bidId" = field b "bidId".

(** A native slot of a reply for [div1] in zone 7, and the SlotRequest with
    a native callback that it answers. *)
Definition native_slot : value :=
  VObj [ ("impid", VStr "div1");
         ("zoneid", VNum 7);
         ("cpm", VNum 1.5);
         ("currency", VStr "USD");
         ("native", VObj [ ("title", VStr "Offer") ]) ].

Definition native_request : value :=
  VObj [ ("bidRequests",
          VArr [ slot_request "div1" "bid-1"
                   [ ("zoneId", VNum 7); ("nativeCallback", VFun 1) ] ]) ].

(** A reply that carries the creative of the example's slot. *)
Definition creative_slot : value :=
  VObj [ ("impid", VStr "div1");
         ("zoneid", VNum 7);
         ("cpm", VNum 1.5);
         ("currency", VStr "USD");
         ("creative", VStr "<div>ad</div>");
         ("width", VNum 300);
         ("height", VNum 250) ].

(** * Properties *)

(** ** Reading properties *)

Lemma get_not_nullish (o : value) (k : string) :
  nullish o = false -> get o k = Ok (field o k).
Proof.
  unfold field; destruct o; simpl; intros H; try discriminate; reflexivity.
Qed.

Lemma get_ok_field (o v : value) (k : string) :
  get o k = Ok v -> field o k = v /\ nullish o = false.
Proof.
  unfold field; intros H; rewrite H; split; [reflexivity|].
  destruct o; simpl in *; congruence.
Qed.

Lemma field_truthy_object (o : value) (k : string) :
  truthy (field o k) = true -> exists fields, o = VObj fields.
Proof.
  unfold field; destruct o; simpl; try discriminate.
  intros _; eexists; reflexivity.
Qed.

Lemma truthy_not_nullish (v : value) : truthy v = true -> nullish v = false.
Proof. destruct v; simpl; congruence. Qed.

Lemma is_object_truthy (v : value) : is_object v = true -> truthy v = true.
Proof. destruct v; simpl; congruence. Qed.

(** ** The validity predicate *)

(** C5, as amended. The predicate never raises; it answers true exactly when
    [params] is truthy and [zoneId] or [networkId] has a truthy value in it.
    [{params: {}}] is invalid and [{params: {zoneId: 123}}] is valid. *)
Theorem isBidRequestValid_truthy_id :
  forall bid : value,
    (exists answer, isBidRequestValid bid = Ok answer) /\
    (isBidRequestValid bid = Ok true <->
     exists params,
       get bid "params" = Ok params /\
       truthy params = true /\
       (truthy (field params "zoneId") = true \/
        truthy (field params "networkId") = true)) /\
    isBidRequestValid (VObj [ ("params", VObj []) ]) = Ok false /\
    isBidRequestValid (VObj [ ("params", VObj [ ("zoneId", VNum 123) ]) ]) = Ok true.
Proof.
  intros bid.
  assert (Hrun : isBidRequestValid bid =
                 Ok (truthy (field bid "params") &&
                     (truthy (param bid "zoneId") || truthy (param bid "networkId")))).
  { unfold isBidRequestValid, param.
    destruct (truthy bid) eqn:Hbid.
    - rewrite (get_not_nullish bid "params" (truthy_not_nullish _ Hbid)); simpl.
      destruct (truthy (field bid "params")) eqn:Hp; [|reflexivity].
      rewrite (get_not_nullish _ "zoneId" (truthy_not_nullish _ Hp)); simpl.
      destruct (truthy (field (field bid "params") "zoneId")); [reflexivity|].
      rewrite (get_not_nullish _ "networkId" (truthy_not_nullish _ Hp)); reflexivity.
    - destruct (truthy (field bid "params")) eqn:Hp; [|reflexivity].
      destruct (field_truthy_object _ _ Hp) as [fields ->]; discriminate. }
  split; [eexists; exact Hrun|].
  split; [|split; reflexivity].
  rewrite Hrun; unfold param; split.
  - intros H; injection H as H.
    apply andb_true_iff in H as [Hp Hid].
    destruct (field_truthy_object _ _ Hp) as [fields ->].
    exists (field (VObj fields) "params"); repeat split; auto.
    now apply orb_true_iff.
  - intros (params & Hget & Hp & Hid).
    apply get_ok_field in Hget as [<- _].
    rewrite Hp; simpl; f_equal; now apply orb_true_iff.
Qed.

(** C5, as worded, fails on [{params: {zoneId: 0}}]: the object declares
    [zoneId], and the predicate answers false. *)
Lemma zero_zone_bid_is_invalid : ~ valid_iff_declared zero_zone_bid.
Proof.
  unfold valid_iff_declared; intros [_ H].
  assert (Hbad : isBidRequestValid zero_zone_bid = Ok true).
  { apply H; eexists; split; [reflexivity|left; reflexivity]. }
  vm_compute in Hbad; discriminate.
Qed.

(** ** Text of the request URL *)

Lemma append_assoc (a b c : string) : ((a ++ b) ++ c = a ++ (b ++ c))%string.
Proof. induction a as [|x a IH]; simpl; [reflexivity | now rewrite IH]. Qed.

Lemma append_empty_r (a : string) : (a ++ "" = a)%string.
Proof. induction a as [|x a IH]; simpl; [reflexivity | now rewrite IH]. Qed.

Lemma prefix_app (pat a b : string) :
  String.prefix pat a = true -> String.prefix pat (a ++ b) = true.
Proof.
  revert a; induction pat as [|x pat IH]; intros a H.
  - destruct (a ++ b)%string; reflexivity.
  - destruct a as [|y a]; simpl in *; [discriminate|].
    destruct (ascii_dec x y); [now apply IH | discriminate].
Qed.

Lemma includes_app_l (pat a b : string) :
  includes pat a = true -> includes pat (a ++ b) = true.
Proof.
  induction a as [|y a IH]; intros H.
  - destruct pat; [destruct (""%string ++ b)%string; reflexivity | discriminate].
  - simpl append. simpl in H.
    change (includes pat (String y (a ++ b)))
      with (String.prefix pat (String y (a ++ b)) || includes pat (a ++ b)).
    apply orb_true_iff in H as [H | H].
    + apply (prefix_app pat (String y a) b) in H. simpl append in H.
      now rewrite H.
    + rewrite (IH H). apply orb_true_r.
Qed.

(** A decimal numeral cannot start an occurrence of ["im=1"]. *)
Lemma includes_im_after_numeral (u : Decimal.uint) (rest : string) :
  includes "im=1" (NilEmpty.string_of_uint u ++ rest) = includes "im=1" rest.
Proof.
  induction u; simpl NilEmpty.string_of_uint; simpl append;
    [reflexivity | exact IHu ..].
Qed.

Lemma buildCdbUrl_shape (env : Env) (context : CriteoContext) :
  buildCdbUrl env context = (url_head ++ dec (random_cb env) ++ url_flags env context)%string.
Proof.
  unfold buildCdbUrl, url_flags.
  change (CDB_ENDPOINT ++ "?profileId=" ++ dec PROFILE_ID)%string
    with "//bidder.criteo.com/cdb?profileId=207".
  change ("//bidder.criteo.com/cdb?profileId=207" ++ "&av=" ++ dec ADAPTER_VERSION)%string
    with "//bidder.criteo.com/cdb?profileId=207&av=5".
  change ("//bidder.criteo.com/cdb?profileId=207&av=5" ++ "&cb=" ++ dec (random_cb env))%string
    with (url_head ++ dec (random_cb env))%string.
  destruct (in_INTEGRATION_MODES _), (ctx_debug context), (ctx_noLog context);
    repeat rewrite append_assoc; repeat rewrite append_empty_r; reflexivity.
Qed.

Lemma includes_im_url (env : Env) (context : CriteoContext) :
  includes "im=1" (buildCdbUrl env context) = includes "im=1" (url_flags env context).
Proof.
  rewrite buildCdbUrl_shape.
  transitivity (includes "im=1" (dec (random_cb env) ++ url_flags env context)).
  - reflexivity.
  - apply includes_im_after_numeral.
Qed.

(** ** Last write wins *)

Lemma find_snoc {A : Type} (f : A -> bool) (xs : list A) (x : A) :
  find f (xs ++ [x]) =
  match find f xs with
  | Some y => Some y
  | None => if f x then Some x else None
  end.
Proof.
  induction xs as [|y ys IH]; simpl; [reflexivity|].
  destruct (f y); [reflexivity | exact IH].
Qed.

Lemma last_truthy_cons (v : value) (vs : list value) :
  last_truthy (v :: vs) =
  if truthy (last_truthy vs) then last_truthy vs
  else if truthy v then v else VUndef.
Proof.
  unfold last_truthy; simpl rev; rewrite find_snoc.
  destruct (find truthy (rev vs)) as [x|] eqn:Hfind.
  - destruct (find_some _ _ Hfind) as [_ Hx]; now rewrite Hx.
  - simpl truthy; cbv iota; destruct (truthy v); reflexivity.
Qed.

Lemma last_truthy_falsy (vs : list value) :
  truthy (last_truthy vs) = false -> last_truthy vs = VUndef.
Proof.
  unfold last_truthy.
  destruct (find truthy (rev vs)) as [x|] eqn:Hfind; [|reflexivity].
  destruct (find_some _ _ Hfind) as [_ Hx]; congruence.
Qed.

Lemma last_truthy_in (vs : list value) :
  truthy (last_truthy vs) = true -> In (last_truthy vs) vs.
Proof.
  unfold last_truthy.
  destruct (find truthy (rev vs)) as [x|] eqn:Hfind; [|discriminate].
  destruct (find_some _ _ Hfind) as [Hin _]; intros _.
  now apply in_rev.
Qed.

Lemma fold_pick (vs : list value) (acc : value) :
  fold_left pick vs acc =
  if truthy (last_truthy vs) then last_truthy vs else acc.
Proof.
  revert acc; induction vs as [|v vs IH]; intros acc; [reflexivity|].
  simpl fold_left; rewrite IH, last_truthy_cons; unfold pick.
  destruct (truthy (last_truthy vs)) eqn:Hl; [now rewrite Hl|].
  destruct (truthy v) eqn:Hv; [now rewrite Hv | reflexivity].
Qed.

Lemma has_params_get (bidRequest : value) (k : string) :
  has_params bidRequest = true ->
  get bidRequest "params" = Ok (field bidRequest "params") /\
  get (field bidRequest "params") k = Ok (param bidRequest k).
Proof.
  unfold has_params, param; intros H.
  apply negb_true_iff in H.
  split; [|now apply get_not_nullish].
  apply get_not_nullish.
  destruct bidRequest; try reflexivity; discriminate.
Qed.

(** The loop of [buildContext] keeps the page's flags and ends on the last
    truthy mode of the batch. *)
Lemma buildContext_mode (env : Env) (batch : list value) :
  Forall (fun b => has_params b = true) batch ->
  exists context,
    buildContext env batch = Ok context /\
    ctx_integrationMode context =
      last_truthy (map (fun b => param b "integrationMode") batch).
Proof.
  intros Hwf; unfold buildContext.
  set (body := fun context bidRequest => _).
  assert (Hloop : forall context,
             exists context',
               foldM body batch context = Ok context' /\
               ctx_integrationMode context' =
                 fold_left pick (map (fun b => param b "integrationMode") batch)
                           (ctx_integrationMode context)).
  { induction Hwf as [|b batch Hb _ IH]; intros context.
    - eexists; split; reflexivity.
    - destruct (has_params_get b "integrationMode" Hb) as [Hp Hm].
      simpl foldM; unfold body at 1; rewrite Hp; simpl rbind; rewrite Hm; simpl rbind.
      simpl map; simpl fold_left; unfold pick at 2.
      destruct (truthy (param b "integrationMode")); simpl rbind; apply IH. }
  destruct (Hloop {| ctx_url := getTopWindowUrl env;
                     ctx_debug := query_flag env "pbt_debug";
                     ctx_noLog := query_flag env "pbt_nolog";
                     ctx_integrationMode := VUndef |}) as (context & Hrun & Hmode).
  exists context; split; [exact Hrun|].
  rewrite Hmode, fold_pick; simpl ctx_integrationMode.
  destruct (truthy (last_truthy _)) eqn:Hl; [reflexivity|].
  symmetry; now apply last_truthy_falsy.
Qed.

(** ** The request URL *)

Lemma url_has_profile_and_version (env : Env) (context : CriteoContext) :
  includes "profileId=207" (buildCdbUrl env context) = true /\
  includes "av=5" (buildCdbUrl env context) = true.
Proof.
  rewrite buildCdbUrl_shape; split; apply includes_app_l; reflexivity.
Qed.

(** Among plain modes only ['amp'] is in [INTEGRATION_MODES]. *)
Lemma plain_mode_in (env : Env) (mode : value) :
  plain_mode mode = true ->
  truthy mode = true ->
  in_INTEGRATION_MODES (ToString env mode) = true ->
  mode = VStr "amp".
Proof.
  unfold plain_mode; intros Hplain Htruthy Hin.
  rewrite Htruthy in Hplain; simpl in Hplain.
  destruct mode; try discriminate.
  simpl in Hin; unfold in_INTEGRATION_MODES in Hin; simpl in Hin.
  destruct (String.eqb_spec s "amp") as [->|_]; [reflexivity|].
  apply negb_true_iff in Hplain; congruence.
Qed.

Lemma flags_without_mode (env : Env) (context : CriteoContext) :
  in_INTEGRATION_MODES (ToString env (ctx_integrationMode context)) = false ->
  includes "im=1" (url_flags env context) = false.
Proof.
  unfold url_flags; intros ->.
  destruct (ctx_debug context), (ctx_noLog context); reflexivity.
Qed.

Lemma flags_with_amp (env : Env) (context : CriteoContext) :
  ctx_integrationMode context = VStr "amp" ->
  includes "im=1" (url_flags env context) = true.
Proof.
  unfold url_flags; intros ->.
  destruct (ctx_debug context), (ctx_noLog context); reflexivity.
Qed.

(** C6, as amended. Every URL the adapter builds contains [profileId=207]
    and [av=5]. For a batch whose SlotRequests all have [params], and whose
    integration modes are strings that name no member of [Object.prototype],
    the context is built and the URL contains [im=1] exactly when the last
    SlotRequest with a truthy [integrationMode] declares ['amp']. *)
Theorem url_carries_profile_version_and_last_mode :
  forall (env : Env) (batch : list value),
    (forall context,
        includes "profileId=207" (buildCdbUrl env context) = true /\
        includes "av=5" (buildCdbUrl env context) = true) /\
    (Forall (fun b => has_params b = true) batch ->
     Forall (fun b => plain_mode (param b "integrationMode") = true) batch ->
     exists context,
       buildContext env batch = Ok context /\
       (includes "im=1" (buildCdbUrl env context) = true <->
        last_truthy (map (fun b => param b "integrationMode") batch) = VStr "amp")).
Proof.
  intros env batch; split; [apply url_has_profile_and_version|].
  intros Hwf Hplain.
  destruct (buildContext_mode env batch Hwf) as (context & Hrun & Hmode).
  exists context; split; [exact Hrun|].
  rewrite includes_im_url, <- Hmode; split.
  - intros Hinc.
    destruct (in_INTEGRATION_MODES (ToString env (ctx_integrationMode context))) eqn:Hin.
    + destruct (truthy (ctx_integrationMode context)) eqn:Ht.
      * apply (plain_mode_in env); auto.
        rewrite Hmode in Ht |- *.
        apply last_truthy_in in Ht.
        apply in_map_iff in Ht as (b & <- & Hb).
        rewrite Forall_forall in Hplain; now apply Hplain.
      * assert (Hnone : ctx_integrationMode context = VUndef).
        { rewrite Hmode in Ht |- *; now apply last_truthy_falsy. }
        rewrite Hnone in Hin; discriminate.
    + rewrite (flags_without_mode env context Hin) in Hinc; discriminate.
  - apply flags_with_amp.
Qed.

(** The specification's example of C6: of two SlotRequests the second of
    which declares ['amp'], the URL carries [im=1]. *)
Lemma url_carries_profile_version_and_last_mode_witness :
  exists context,
    buildContext plain_env
      [ slot_request "div1" "bid-1" [ ("zoneId", VNum 7) ];
        slot_request "div2" "bid-2" [ ("integrationMode", VStr "amp") ] ] = Ok context /\
    includes "im=1" (buildCdbUrl plain_env context) = true.
Proof.
  destruct (proj2 (url_carries_profile_version_and_last_mode plain_env
              [ slot_request "div1" "bid-1" [ ("zoneId", VNum 7) ];
                slot_request "div2" "bid-2" [ ("integrationMode", VStr "amp") ] ]))
    as (context & Hrun & Hiff).
  - repeat constructor.
  - repeat constructor.
  - exists context; split; [exact Hrun|].
    apply Hiff; reflexivity.
Defined.

(** C6, as worded, fails on a batch that declares ['amp'] and then the empty
    string: the later mode is outside the whitelist, and [im=1] is sent. *)
Lemma amp_survives_blank_mode : ~ im_iff_amp_not_overridden plain_env amp_then_blank.
Proof.
  unfold im_iff_amp_not_overridden; intros H.
  destruct (H _ eq_refl) as [Hstated _].
  destruct (Hstated eq_refl) as (before & b & after & Hsplit & Hamp & Hlater).
  destruct before as [|x [|y before]]; simpl in Hsplit.
  - injection Hsplit as <- <-.
    apply Forall_inv in Hlater.
    specialize (Hlater _ eq_refl); discriminate.
  - injection Hsplit as _ <- _; discriminate.
  - injection Hsplit as _ _ Hnil; destruct before; discriminate.
Qed.

(** ** The request payload *)

Lemma mapM_ok {A B : Type} (f : A -> result B) (xs : list A) :
  Forall (fun x => exists y, f x = Ok y) xs ->
  exists ys, mapM f xs = Ok ys /\ List.length ys = List.length xs.
Proof.
  induction 1 as [|x xs [y Hy] _ [ys [Hys Hlen]]]; simpl.
  - exists []; split; reflexivity.
  - rewrite Hy; simpl; rewrite Hys; simpl.
    exists (y :: ys); split; [reflexivity | simpl; now rewrite Hlen].
Qed.

Lemma size_text_ok (env : Env) (size : value) :
  nullish size = false -> exists text, size_text env size = Ok text.
Proof.
  intros H; unfold size_text.
  destruct size; try discriminate; simpl; eexists; reflexivity.
Qed.

Lemma buildSlot_ok (env : Env) (networkId bidRequest : value) :
  well_formed bidRequest = true ->
  exists slot,
    buildSlot env networkId bidRequest = Ok (pick networkId (param bidRequest "networkId"), slot).
Proof.
  unfold well_formed; intros H.
  apply andb_true_iff in H as [Hp Hsizes].
  assert (Hobj : nullish bidRequest = false).
  { unfold has_params in Hp; destruct bidRequest; try reflexivity; discriminate. }
  destruct (field bidRequest "sizes") as [| | | | | |sizes|] eqn:Hs; try discriminate.
  destruct (mapM_ok (size_text env) sizes) as (texts & Htexts & _).
  { rewrite forallb_forall in Hsizes; apply Forall_forall; intros size Hin.
    apply size_text_ok, negb_true_iff, Hsizes, Hin. }
  unfold buildSlot.
  destruct (has_params_get bidRequest "networkId" Hp) as [Hparams Hn].
  rewrite Hparams; simpl rbind; rewrite Hn; simpl rbind.
  rewrite !(get_not_nullish bidRequest _ Hobj), Hs; simpl rbind.
  rewrite Htexts; simpl rbind.
  destruct (has_params_get bidRequest "zoneId" Hp) as [_ ->]; simpl rbind.
  destruct (has_params_get bidRequest "publisherSubId" Hp) as [_ ->]; simpl rbind.
  destruct (has_params_get bidRequest "nativeCallback" Hp) as [_ ->]; simpl rbind.
  eexists; reflexivity.
Qed.

Lemma buildSlots_ok (env : Env) (batch : list value) :
  Forall (fun b => well_formed b = true) batch ->
  forall networkId,
  exists slots,
    buildSlots env networkId batch =
      Ok (fold_left pick (map (fun b => param b "networkId") batch) networkId, slots) /\
    List.length slots = List.length batch.
Proof.
  induction 1 as [|b batch Hb _ IH]; intros networkId.
  - exists []; split; reflexivity.
  - destruct (buildSlot_ok env networkId b Hb) as [slot Hslot].
    destruct (IH (pick networkId (param b "networkId"))) as (slots & Hslots & Hlen).
    simpl buildSlots; rewrite Hslot; simpl rbind; rewrite Hslots; simpl rbind.
    exists (slot :: slots); split; [reflexivity | simpl; now rewrite Hlen].
Qed.

Lemma get_index_not_nullish (v : value) (i : nat) :
  nullish v = false -> get_index v i = Ok (at_index v i).
Proof. unfold at_index; destruct v; try discriminate; reflexivity. Qed.

Lemma gdprConsent_block_ok (gdprConsent : value) :
  truthy gdprConsent = true -> exists block, gdprConsent_block gdprConsent = Ok block.
Proof.
  intros H; apply truthy_not_nullish in H; unfold gdprConsent_block.
  rewrite !(get_not_nullish gdprConsent _ H); simpl rbind.
  destruct (truthy (field gdprConsent "vendorData")) eqn:Hv.
  - rewrite (get_not_nullish _ "vendorConsents" (truthy_not_nullish _ Hv)); simpl rbind.
    destruct (truthy (field (field gdprConsent "vendorData") "vendorConsents")) eqn:Hc.
    + rewrite (get_index_not_nullish _ _ (truthy_not_nullish _ Hc)); simpl rbind.
      eexists; reflexivity.
    + eexists; reflexivity.
  - eexists; reflexivity.
Qed.

(** The payload of a well-formed batch: the publisher block with the page
    URL and the network id that survived the loop, one slot per SlotRequest,
    and whatever follows. *)
Lemma buildCdbRequest_shape (env : Env) (context : CriteoContext)
    (batch : list value) (bidderRequest : value) :
  Forall (fun b => well_formed b = true) batch ->
  exists slots more,
    buildCdbRequest env context batch bidderRequest =
      Ok (VObj (("publisher",
                 VObj (("url", VStr (ctx_url context)) ::
                       (let n := last_truthy (map (fun b => param b "networkId") batch) in
                        if truthy n then [ ("networkid", n) ] else [])))
                :: ("slots", VArr slots) :: more)) /\
    List.length slots = List.length batch.
Proof.
  intros Hwf.
  destruct (buildSlots_ok env batch Hwf VUndef) as (slots & Hslots & Hlen).
  exists slots; unfold buildCdbRequest; rewrite Hslots; simpl rbind.
  rewrite fold_pick.
  set (n := last_truthy _).
  assert (Hn : (if truthy n then n else VUndef) = n).
  { destruct (truthy n) eqn:Ht; [reflexivity|].
    symmetry; now apply last_truthy_falsy. }
  rewrite Hn; clear Hn.
  assert (Hgdpr : exists more,
             (if truthy bidderRequest then
                gdprConsent <- get bidderRequest "gdprConsent" ;;
                if truthy gdprConsent then
                  block <- gdprConsent_block gdprConsent ;;
                  Ok (VObj (set_field "gdprConsent" block
                              [ ("publisher",
                                 VObj (("url", VStr (ctx_url context)) ::
                                       (if truthy n then [ ("networkid", n) ] else [])));
                                ("slots", VArr slots) ]))
                else Ok (VObj [ ("publisher",
                                 VObj (("url", VStr (ctx_url context)) ::
                                       (if truthy n then [ ("networkid", n) ] else [])));
                                ("slots", VArr slots) ])
              else Ok (VObj [ ("publisher",
                               VObj (("url", VStr (ctx_url context)) ::
                                     (if truthy n then [ ("networkid", n) ] else [])));
                              ("slots", VArr slots) ]))%res =
             Ok (VObj (("publisher",
                        VObj (("url", VStr (ctx_url context)) ::
                              (if truthy n then [ ("networkid", n) ] else [])))
                       :: ("slots", VArr slots) :: more))).
  { destruct (truthy bidderRequest) eqn:Hb; [|exists []; reflexivity].
    rewrite (get_not_nullish _ "gdprConsent" (truthy_not_nullish _ Hb)); simpl rbind.
    destruct (truthy (field bidderRequest "gdprConsent")) eqn:Hg; [|exists []; reflexivity].
    destruct (gdprConsent_block_ok _ Hg) as [block ->]; simpl rbind.
    eexists; reflexivity. }
  destruct Hgdpr as [more Hmore].
  exists more; split; [|exact Hlen].
  rewrite <- Hmore; destruct (truthy n); reflexivity.
Qed.

(** C7, as amended. For every batch the builder can serialise,
    [publisher.networkid] is the [networkId] of the last SlotRequest in which
    it is truthy, and the field is left out when no SlotRequest has a truthy
    one. *)
Theorem networkid_is_last_truthy :
  forall (env : Env) (context : CriteoContext) (batch : list value) (bidderRequest : value),
    Forall (fun b => well_formed b = true) batch ->
    exists request,
      buildCdbRequest env context batch bidderRequest = Ok request /\
      networkid_of request =
        (let n := last_truthy (map (fun b => param b "networkId") batch) in
         if truthy n then Some n else None).
Proof.
  intros env context batch bidderRequest Hwf.
  destruct (buildCdbRequest_shape env context batch bidderRequest Hwf)
    as (slots & more & Hrun & _).
  eexists; split; [exact Hrun|].
  unfold networkid_of, field; simpl get; cbv zeta.
  destruct (truthy (last_truthy _)); reflexivity.
Qed.

(** The specification's example of C7: of two SlotRequests only the second
    of which declares [networkId: 42], [publisher.networkid] is 42. *)
Lemma networkid_is_last_truthy_witness :
  exists request,
    buildCdbRequest plain_env sample_context only_second_has_network sample_bidderRequest
      = Ok request /\
    networkid_of request = Some (VNum 42).
Proof.
  destruct (networkid_is_last_truthy plain_env sample_context only_second_has_network
              sample_bidderRequest) as (request & Hrun & Hid).
  - repeat constructor.
  - exists request; split; [exact Hrun | exact Hid].
Defined.

(** C7, as worded, fails on a batch whose last SlotRequest declares the
    network id 0: the field keeps the earlier 42. *)
Lemma zero_network_id_is_skipped :
  ~ networkid_is_last_declared plain_env sample_context network_then_zero sample_bidderRequest.
Proof.
  unfold networkid_is_last_declared; intros H.
  specialize (H _ eq_refl).
  apply (f_equal (fun o => match o with
                           | Some (VNum f) => PrimFloat.is_zero f
                           | _ => false
                           end)) in H.
  vm_compute in H; discriminate.
Qed.

(** ** The request builder's result *)

Lemma well_formed_has_params (batch : list value) :
  Forall (fun b => well_formed b = true) batch ->
  Forall (fun b => has_params b = true) batch.
Proof.
  apply Forall_impl; intros b H.
  unfold well_formed in H; now apply andb_true_iff in H as [H _].
Qed.

(** C4, as amended. When the first block of [buildRequests] leaves the page
    without a delegate, every batch the builder can serialise, the empty one
    included, yields a POST request with one slot per SlotRequest: the
    adapter has no rule by which a slot fails to qualify. *)
Theorem buildRequests_always_yields_locally :
  forall (env : Env) (st st1 : State) (batch : list value) (bidderRequest : value),
    prepare env bidderRequest st = (Ok tt, st1) ->
    delegate (heap st1) = None ->
    Forall (fun b => well_formed b = true) batch ->
    exists url data slots,
      buildRequests env batch bidderRequest st =
        (Ok (VObj [ ("method", VStr "POST");
                    ("url", VStr url);
                    ("data", data);
                    ("bidRequests", VArr batch) ]), st1) /\
      get data "slots" = Ok (VArr slots) /\
      List.length slots = List.length batch.
Proof.
  intros env st st1 batch bidderRequest Hprep Hnone Hwf.
  destruct (buildContext_mode env batch (well_formed_has_params batch Hwf))
    as (context & Hcontext & _).
  destruct (buildCdbRequest_shape env context batch bidderRequest Hwf)
    as (slots & more & Hdata & Hlen).
  exists (buildCdbUrl env context); eexists; exists slots.
  unfold buildRequests, bind.
  rewrite Hprep; unfold read_heap; rewrite Hnone.
  unfold lift; rewrite Hcontext, Hdata.
  unfold ret, serverRequest; simpl truthy; cbv iota.
  split; [reflexivity|].
  split; [reflexivity | exact Hlen].
Qed.

(** The empty batch on a page without delegate or cached script: a request
    with an empty slot list. *)
Lemma buildRequests_always_yields_locally_witness :
  exists url data,
    fst (buildRequests plain_env [] sample_bidderRequest (fresh empty_heap)) =
      Ok (VObj [ ("method", VStr "POST");
                 ("url", VStr url);
                 ("data", data);
                 ("bidRequests", VArr []) ]) /\
    get data "slots" = Ok (VArr []).
Proof.
  destruct (buildRequests_always_yields_locally plain_env (fresh empty_heap)
              (snd (prepare plain_env sample_bidderRequest (fresh empty_heap)))
              [] sample_bidderRequest)
    as (url & data & slots & Hrun & Hslots & Hlen).
  - reflexivity.
  - reflexivity.
  - constructor.
  - exists url, data; rewrite Hrun; split; [reflexivity|].
    destruct slots; [exact Hslots | discriminate].
Defined.

(** C4, as worded, fails on the empty batch: the builder returns a request
    whose slot list is empty, not nothing. *)
Lemma empty_batch_yields_a_request :
  ~ empty_batch_yields_nothing plain_env (fresh empty_heap) sample_bidderRequest.
Proof.
  unfold empty_batch_yields_nothing; intros H.
  vm_compute in H; discriminate.
Qed.

(** ** The response interpreter *)

Lemma find_first_hit (p : value -> result bool) (xs : list value) (b : value) :
  find_first p xs = Ok b -> nullish b = false -> In b xs /\ p b = Ok true.
Proof.
  induction xs as [|x xs IH]; simpl; intros Hfind Hb.
  - injection Hfind as <-; discriminate.
  - destruct (p x) as [[|]|e] eqn:Hp; simpl in Hfind; try discriminate.
    + injection Hfind as <-; auto.
    + destruct (IH Hfind Hb); auto.
Qed.

Lemma correlates_true (slot b : value) :
  correlates slot b = Ok true ->
  nullish slot = false /\ nullish (field b "params") = false.
Proof.
  unfold correlates; intros H.
  destruct (get b "adUnitCode") as [code|] eqn:Hcode; simpl in H; [|discriminate].
  destruct (get slot "impid") as [impid|] eqn:Himpid; simpl in H; [|discriminate].
  apply get_ok_field in Himpid as [_ Hslot]; split; [exact Hslot|].
  destruct (strict_equals code impid); [|discriminate].
  destruct (get b "params") as [params|] eqn:Hparams; simpl in H; [|discriminate].
  apply get_ok_field in Hparams as [-> _].
  destruct (get params "zoneId") eqn:Hzone; simpl in H; [|discriminate].
  now apply get_ok_field in Hzone as [_ Hzone].
Qed.

Lemma interpretSlot_matched (env : Env) (request slot b : value)
    (batch : list value) (st : State) :
  get request "bidRequests" = Ok (VArr batch) ->
  find_first (correlates slot) batch = Ok b ->
  nullish b = false ->
  exists ad st', interpretSlot env request slot st = (Ok (bid_of slot b ad), st').
Proof.
  intros Hbatch Hfind Hb.
  destruct (find_first_hit _ _ _ Hfind Hb) as [_ Hcor].
  destruct (correlates_true _ _ Hcor) as [Hslot Hparams].
  unfold interpretSlot, bind, lift.
  rewrite Hbatch; simpl as_array; cbv iota beta.
  rewrite Hfind, (get_not_nullish b "bidId" Hb).
  rewrite !(get_not_nullish slot _ Hslot).
  destruct (truthy (field slot "native")).
  - rewrite (get_not_nullish b "params").
    2:{ destruct b; try reflexivity; discriminate. }
    rewrite (get_not_nullish _ "nativeCallback" Hparams).
    unfold createNativeAd, bind, read_heap, write_heap, ret.
    eexists; eexists; reflexivity.
  - unfold ret; eexists; eexists; reflexivity.
Qed.

Lemma interpretSlot_inv (env : Env) (request slot bid : value) (st st' : State) :
  interpretSlot env request slot st = (Ok bid, st') ->
  exists batch b,
    get request "bidRequests" = Ok (VArr batch) /\
    find_first (correlates slot) batch = Ok b /\
    nullish b = false.
Proof.
  unfold interpretSlot, bind, lift; intros H.
  destruct (get request "bidRequests") as [bidRequests|] eqn:Hreq; [|discriminate].
  destruct bidRequests as [| | | | | |batch|]; try discriminate.
  simpl as_array in H; cbv iota beta in H.
  destruct (find_first (correlates slot) batch) as [b|] eqn:Hfind; [|discriminate].
  exists batch, b; split; [reflexivity | split; [exact Hfind|]].
  destruct b; try reflexivity; simpl in H; discriminate H.
Qed.



Lemma interpretSlot_answers (env : Env) (request slot bid : value) (st st' : State) :
  interpretSlot env request slot st = (Ok bid, st') -> answers request bid.
Proof.
  intros Hrun.
  destruct (interpretSlot_inv _ _ _ _ _ _ Hrun) as (batch & b & Hbatch & Hfind & Hb).
  destruct (interpretSlot_matched env request slot b batch st Hbatch Hfind Hb)
    as (ad & st1 & Hslot).
  rewrite Hslot in Hrun; injection Hrun as <- _.
  split; [reflexivity|].
  exists batch, b; split; [exact Hbatch|].
  split; [apply (find_first_hit _ _ _ Hfind Hb) | reflexivity].
Qed.





(** Without a delegate the interpreter is the adapter's own. *)
Lemma interpretResponse_local (env : Env) (response request : value) (st : State) :
  delegate (heap st) = None ->
  interpretResponse env response request st =
  match body_of response with
  | Ok body => interpretLocally env body request st
  | Throw e => (Throw e, st)
  end.
Proof.
  intros Hnone; unfold interpretResponse, bind, lift, read_heap.
  destruct (body_of response); [now rewrite Hnone | reflexivity].
Qed.






(** C9, as amended. With no delegate on the page, a response other than
    [undefined] and [null], bare or wrapped under [body], whose body as the
    interpreter takes it is not an object, or has a [slots] that is not an
    array, is interpreted as no bids at all: nothing is raised and the page
    is left as it was. *)
Theorem malformed_body_gives_no_bids :
  forall (env : Env) (response request : value) (st : State),
    delegate (heap st) = None ->
    nullish response = false ->
    malformed (js_or (field response "body") response) ->
    interpretResponse env response request st = (Ok [], st).
Proof.
  intros env response request st Hnone Hresponse Hbad.
  rewrite (interpretResponse_local env response request st Hnone).
  unfold body_of; rewrite (get_not_nullish response "body" Hresponse); simpl rbind.
  set (body := js_or (field response "body") response) in *.
  unfold interpretLocally, bind, lift.
  destruct (truthy body) eqn:Htruthy; [|reflexivity].
  rewrite (get_not_nullish body "slots" (truthy_not_nullish _ Htruthy)).
  assert (Hslots : truthy (field body "slots") && isArray (field body "slots") = false).
  { destruct Hbad as [Hprim | Harr].
    - destruct body; try discriminate; reflexivity.
    - rewrite Harr; apply andb_false_r. }
  rewrite Hslots; reflexivity.
Qed.

(** An HTML error page in place of the JSON reply gives no bids, wrapped as
    the framework hands it over and bare; so does a wrapped [null]. *)
Lemma malformed_body_gives_no_bids_witness :
  interpretResponse plain_env garbled_response div1_request (fresh empty_heap)
    = (Ok [], fresh empty_heap) /\
  interpretResponse plain_env (VStr "<html>Bad Gateway</html>") div1_request
    (fresh empty_heap) = (Ok [], fresh empty_heap) /\
  interpretResponse plain_env (VObj [ ("body", VNull) ]) div1_request (fresh empty_heap)
    = (Ok [], fresh empty_heap).
Proof.
  split; [|split].
  - apply (malformed_body_gives_no_bids plain_env garbled_response div1_request
             (fresh empty_heap)); [reflexivity | reflexivity | left; reflexivity].
  - apply (malformed_body_gives_no_bids plain_env (VStr "<html>Bad Gateway</html>")
             div1_request (fresh empty_heap));
      [reflexivity | reflexivity | left; reflexivity].
  - apply (malformed_body_gives_no_bids plain_env (VObj [ ("body", VNull) ]) div1_request
             (fresh empty_heap)); [reflexivity | reflexivity | right; reflexivity].
Defined.

(** C9, as worded, fails on a reply of [null] handed over bare: [null] is
    not an object, and the read of its [body] raises a TypeError. *)
Lemma null_reply_raises :
  ~ malformed_never_raises plain_env div1_request (fresh empty_heap) VNull.
Proof.
  unfold malformed_never_raises; intros H.
  destruct (H (or_introl eq_refl)) as [Hbare _].
  discriminate Hbare.
Qed.

(** A slot for which [find] comes back empty-handed ends the call: the read
    of [bidId] raises. *)
Lemma unmatched_slot_always_raises (env : Env) (request slot : value)
    (batch : list value) (st : State) :
  get request "bidRequests" = Ok (VArr batch) ->
  find_first (correlates slot) batch = Ok VUndef ->
  interpretSlot env request slot st = (Throw TypeError, st).
Proof.
  intros Hbatch Hfind.
  unfold interpretSlot, bind, lift.
  rewrite Hbatch; simpl as_array; cbv iota beta.
  rewrite Hfind; reflexivity.
Qed.

(** C2 on the code. A reply whose first slot correlates with no SlotRequest
    of the batch makes the interpreter raise a TypeError, at the read of
    [bidId] on the [undefined] that [find] returned; the matched slot that
    follows is lost with it, although alone it gives its bid. *)
Theorem unmatched_slot_raises :
  interpretResponse plain_env stray_response bid1_request (fresh empty_heap)
    = (Throw TypeError, fresh empty_heap) /\
  interpretResponse plain_env div1_response bid1_request (fresh empty_heap)
    = (Ok [ bid1_bid ], fresh empty_heap).
Proof. split; reflexivity. Qed.

(** ** The cached script *)

Lemma drain_idle (env : Env) (turns : nat) (st : State) :
  jobs st = [] -> drain env turns st = st.
Proof.
  induction turns as [|n IH]; intros H; [reflexivity|].
  simpl; unfold run_next; rewrite H; now apply IH.
Qed.

(** With a hash header in place, validation goes straight to the
    verification. *)
Lemma validate_with_header (env : Env) (fastBid : jsstring) (st : State) :
  has_hash_header fastBid = true ->
  validateFastBid env fastBid (UseFastBid fastBid) st =
  try_catch
    (cryptoVerify env FAST_BID_ALGO FAST_BID_PUBKEY
       (substr (firstLine_of fastBid) 9 None)
       (substr fastBid (indexOf newline fastBid + 1) None)
       (UseFastBid fastBid))
    (fun _ => bind (logWarn "Failed to verify Criteo FastBid")
                   (fun _ => call env (UseFastBid fastBid) None)) st.
Proof.
  unfold has_hash_header, firstLine_of; intros H.
  unfold validateFastBid, bind at 1; rewrite H; reflexivity.
Qed.

Lemma tryGet_cached (env : Env) (h : Heap) (fastBid : jsstring) :
  criteo_fast_bid h = Some fastBid ->
  has_hash_header fastBid = true ->
  tryGetCriteoFastBid env (fresh h) =
  try_catch
    (try_catch
       (cryptoVerify env FAST_BID_ALGO FAST_BID_PUBKEY
          (substr (firstLine_of fastBid) 9 None)
          (substr fastBid (indexOf newline fastBid + 1) None)
          (UseFastBid fastBid))
       (fun _ => bind (logWarn "Failed to verify Criteo FastBid")
                      (fun _ => call env (UseFastBid fastBid) None)))
    (fun _ => ret tt) (fresh h).
Proof.
  intros Hcache Hheader.
  unfold tryGetCriteoFastBid, try_catch at 1 3, bind at 1, read_heap.
  unfold fresh at 1; cbn [heap]; rewrite Hcache.
  now rewrite (validate_with_header env fastBid _ Hheader).
Qed.

(** Reads the facts of interest off a trace that has been computed. *)
Ltac trace_facts :=
  unfold runs_unverified, executed, evicted; simpl trace; split;
  [ simpl; auto 10
  | split; [ simpl; auto 10 | simpl; intuition discriminate ] ].

(** Runs the callback on an undefined verdict, whatever the script throws. *)
Ltac run_script env fastBid :=
  unfold call, eval_script, logInfo, logWarn, bind, emit, throw, ret, fresh; simpl;
  repeat match goal with
         | |- context [eval env fastBid ?h] =>
             let h' := fresh "h" in
             destruct (eval env fastBid h) as [[[]|?] h']; simpl
         end;
  rewrite ?drain_idle by reflexivity; trace_facts.

(** On a working library the verification starts with the key import. *)
Lemma cryptoVerify_enqueues (env : Env) (s : SubtleCrypto) (algo key : value)
    (hash code : jsstring) (callback : Callback) (st : State) :
  Verifier env s ->
  cryptoVerify env algo key hash code callback st =
  enqueue (ImportKeySettled (importKey s key algo) s algo hash code callback) st.
Proof.
  intros [crypto Hcrypto Hsub | Hstd Hms]; unfold cryptoVerify.
  - unfold standardSubtle; rewrite Hcrypto.
    destruct crypto as [sub web]; simpl in Hsub; subst sub; reflexivity.
  - now rewrite Hstd, Hms.
Qed.

(** A hash that is not base64 text ends the key-import handler of a working
    crypto library before any verdict: such a script is neither run nor
    evicted. *)
Lemma undecodable_hash_is_skipped (env : Env) (h : Heap) (fastBid : jsstring)
    (turns : nat) (s : SubtleCrypto) :
  Verifier env s ->
  importKey s FAST_BID_PUBKEY FAST_BID_ALGO = true ->
  atob env (fileEncryptedHash_of fastBid) = None ->
  criteo_fast_bid h = Some fastBid ->
  has_hash_header fastBid = true ->
  trace (after_fast_bid env h turns) = [].
Proof.
  intros Hver Himport Hatob Hcache Hheader.
  unfold after_fast_bid; rewrite (tryGet_cached env h fastBid Hcache Hheader).
  unfold try_catch; rewrite (cryptoVerify_enqueues env s _ _ _ _ _ _ Hver).
  rewrite Himport; unfold enqueue, fresh; simpl.
  destruct turns as [|turns]; [reflexivity|].
  simpl drain; unfold run_next; simpl.
  unfold fileEncryptedHash_of in Hatob; rewrite Hatob.
  unfold throw; simpl; now rewrite drain_idle.
Qed.

(** C1, as amended. What becomes of a cached script with a hash header
    when no verdict on it is reached depends on where the attempt fails.
    With no crypto library, with a library whose use raises, or with a failed
    key import, the script is handed to [eval] and the cache entry is not
    removed: once the import handler has run, the trace is the notice of use
    and the evaluation, alone, or after the warning of a failed attempt, or
    twice with that warning in between.  When the key is imported and
    [atob] then raises on the hash, inside the import handler, the script is
    neither run nor removed. *)
Theorem indeterminate_verdict_runs_script :
  forall (env : Env) (h : Heap) (fastBid : jsstring) (turns : nat),
    criteo_fast_bid h = Some fastBid ->
    has_hash_header fastBid = true ->
    (1 <= turns)%nat ->
    (Indeterminate env ->
     runs_unverified fastBid (trace (after_fast_bid env h turns)) /\
     executed fastBid (after_fast_bid env h turns) /\
     ~ evicted (after_fast_bid env h turns)) /\
    (forall s : SubtleCrypto,
       Verifier env s ->
       importKey s FAST_BID_PUBKEY FAST_BID_ALGO = true ->
       atob env (fileEncryptedHash_of fastBid) = None ->
       ~ executed fastBid (after_fast_bid env h turns) /\
       ~ evicted (after_fast_bid env h turns)).
Proof.
  intros env h fastBid turns Hcache Hheader Hturns; split.
  - intros Hind.
    unfold after_fast_bid; rewrite (tryGet_cached env h fastBid Hcache Hheader).
    destruct turns as [|turns]; [lia|]; clear Hturns.
    destruct Hind as [Hstd Hms | crypto s Hcrypto Hsub Hwebkit
                     | crypto s Hcrypto Hsub Himport | ms Hstd Hms Himport].
    + unfold try_catch, cryptoVerify; rewrite Hstd, Hms.
      run_script env fastBid.
    + unfold try_catch, cryptoVerify, standardSubtle; rewrite Hcrypto.
      destruct crypto as [sub web]; simpl in Hsub, Hwebkit; subst sub web.
      run_script env fastBid.
    + unfold try_catch, cryptoVerify, standardSubtle; rewrite Hcrypto.
      destruct crypto as [sub web]; simpl in Hsub; subst sub.
      rewrite Himport; unfold enqueue, fresh; simpl.
      unfold run_next; simpl.
      run_script env fastBid.
    + unfold try_catch, cryptoVerify; rewrite Hstd, Hms.
      rewrite Himport; unfold enqueue, fresh; simpl.
      unfold run_next; simpl.
      run_script env fastBid.
  - intros s Hver Himport Hatob.
    unfold executed, evicted.
    rewrite (undecodable_hash_is_skipped env h fastBid turns s Hver Himport Hatob
               Hcache Hheader).
    split; intros [].
Qed.

(** A signed script is run and kept on a browser without crypto library,
    and neither run nor removed on one whose [atob] rejects its hash. *)
Lemma indeterminate_verdict_runs_script_witness :
  (runs_unverified signed_script
     (trace (after_fast_bid plain_env (cached signed_script) 1)) /\
   executed signed_script (after_fast_bid plain_env (cached signed_script) 1) /\
   ~ evicted (after_fast_bid plain_env (cached signed_script) 1)) /\
  (~ executed signed_script (after_fast_bid undecoding_env (cached signed_script) 1) /\
   ~ evicted (after_fast_bid undecoding_env (cached signed_script) 1)).
Proof.
  split.
  - apply (indeterminate_verdict_runs_script plain_env (cached signed_script)
             signed_script 1 eq_refl eq_refl (le_n 1)).
    apply NoCryptoLibrary; reflexivity.
  - apply (indeterminate_verdict_runs_script undecoding_env (cached signed_script)
             signed_script 1 eq_refl eq_refl (le_n 1)) with (s := constant_subtle (Some true)).
    + apply (StandardVerifier _ _ {| subtle := Some (constant_subtle (Some true));
                                     webkitSubtle := None |}); reflexivity.
    + reflexivity.
    + reflexivity.
Defined.

(** C1, as worded, fails on a browser without crypto library: the cached
    script is executed. *)
Lemma script_runs_without_crypto : ~ indeterminate_is_skipped plain_env signed_script.
Proof.
  unfold indeterminate_is_skipped; intros H.
  destruct (H (NoCryptoLibrary plain_env eq_refl eq_refl) eq_refl 0%nat) as [Hskipped _].
  apply Hskipped; unfold executed; simpl; auto.
Qed.

Lemma appends_ret {A : Type} (a : A) : appends (ret a).
Proof. intros st; exists []; simpl; now rewrite app_nil_r. Qed.

Lemma appends_throw {A : Type} (e : exn) : appends (@throw A e).
Proof. intros st; exists []; simpl; now rewrite app_nil_r. Qed.

Lemma appends_emit (e : Event) : appends (emit e).
Proof. intros st; exists [e]; reflexivity. Qed.

Lemma appends_enqueue (j : Job) : appends (enqueue j).
Proof. intros st; exists []; simpl; now rewrite app_nil_r. Qed.

Lemma appends_bind {A B : Type} (m : M A) (k : A -> M B) :
  appends m -> (forall a, appends (k a)) -> appends (bind m k).
Proof.
  intros Hm Hk st; unfold bind.
  destruct (Hm st) as [more Hmore].
  destruct (m st) as [[a|e] st1]; simpl in Hmore.
  - destruct (Hk a st1) as [more' Hmore'].
    exists (more ++ more')%list; now rewrite Hmore', Hmore, app_assoc.
  - exists more; exact Hmore.
Qed.

Lemma appends_try_catch {A : Type} (m : M A) (handler : exn -> M A) :
  appends m -> (forall e, appends (handler e)) -> appends (try_catch m handler).
Proof.
  intros Hm Hh st; unfold try_catch.
  destruct (Hm st) as [more Hmore].
  destruct (m st) as [[a|e] st1]; simpl in Hmore.
  - exists more; exact Hmore.
  - destruct (Hh e st1) as [more' Hmore'].
    exists (more ++ more')%list; now rewrite Hmore', Hmore, app_assoc.
Qed.

Lemma appends_call (env : Env) (callback : Callback) (valid : option bool) :
  appends (call env callback valid).
Proof.
  destruct callback as [fastBid]; unfold call.
  destruct valid as [[|]|].
  - apply appends_bind; [apply appends_emit|]; intros _ st.
    unfold eval_script, bind, emit; simpl.
    destruct (eval env fastBid (heap st)) as [r h]; exists [EvalScript fastBid]; reflexivity.
  - apply appends_bind; [apply appends_emit|]; intros _ st.
    exists [RemoveItem "criteo_fast_bid"]; reflexivity.
  - apply appends_bind; [apply appends_emit|]; intros _ st.
    unfold eval_script, bind, emit; simpl.
    destruct (eval env fastBid (heap st)) as [r h]; exists [EvalScript fastBid]; reflexivity.
Qed.

Lemma appends_cryptoVerify (env : Env) (algo key : value) (hash code : jsstring)
    (callback : Callback) :
  appends (cryptoVerify env algo key hash code callback).
Proof.
  unfold cryptoVerify.
  destruct (standardSubtle env).
  - destruct (window_crypto env) as [[[importer|] web]|];
      first [apply appends_enqueue | apply appends_throw].
  - destruct (window_msCrypto env); [apply appends_enqueue | apply appends_call].
Qed.

Lemma appends_run_job (env : Env) (j : Job) : appends (run_job env j).
Proof.
  destruct j as [[|] verifier algo hash code callback | [verdict|] callback | delay]; simpl.
  - destruct (atob env hash); [apply appends_enqueue | apply appends_throw].
  - apply appends_call.
  - apply appends_call.
  - apply appends_call.
  - apply appends_emit.
Qed.

Lemma drain_appends (env : Env) (turns : nat) (st : State) :
  exists more, trace (drain env turns st) = (trace st ++ more)%list.
Proof.
  revert st; induction turns as [|n IH]; intros st.
  - exists []; simpl; now rewrite app_nil_r.
  - simpl drain.
    destruct (IH (run_next env st)) as [more Hmore].
    assert (Hstep : exists more', trace (run_next env st) = (trace st ++ more')%list).
    { unfold run_next; destruct (jobs st) as [|j rest].
      - exists []; now rewrite app_nil_r.
      - apply (appends_run_job env j {| heap := heap st; trace := trace st; jobs := rest |}). }
    destruct Hstep as [more' Hmore'].
    exists (more' ++ more)%list; now rewrite Hmore, Hmore', app_assoc.
Qed.

(** Without a hash header, validation reports the script invalid and then
    goes on to the verification all the same. *)
Lemma validate_without_header (env : Env) (fastBid : jsstring) (st : State) :
  has_hash_header fastBid = false ->
  validateFastBid env fastBid (UseFastBid fastBid) st =
  try_catch
    (cryptoVerify env FAST_BID_ALGO FAST_BID_PUBKEY
       (substr (firstLine_of fastBid) 9 None)
       (substr fastBid (indexOf newline fastBid + 1) None)
       (UseFastBid fastBid))
    (fun _ => bind (logWarn "Failed to verify Criteo FastBid")
                   (fun _ => call env (UseFastBid fastBid) None))
    (snd (bind (logWarn "No hash found in FastBid")
               (fun _ => call env (UseFastBid fastBid) (Some false)) st)).
Proof.
  unfold has_hash_header, firstLine_of; intros H.
  unfold validateFastBid; rewrite H.
  set (rest := try_catch _ _).
  unfold bind, call, logWarn, removeItem, emit, read_heap, write_heap; reflexivity.
Qed.

(** Whatever the browser, a cached script without hash header is reported
    invalid and evicted. *)
Lemma headerless_script_is_evicted (env : Env) (h : Heap) (fastBid : jsstring) (turns : nat) :
  criteo_fast_bid h = Some fastBid ->
  has_hash_header fastBid = false ->
  In (LogWarn "No hash found in FastBid") (trace (after_fast_bid env h turns)) /\
  evicted (after_fast_bid env h turns).
Proof.
  intros Hcache Hheader.
  unfold evicted, after_fast_bid.
  destruct (drain_appends env turns (snd (tryGetCriteoFastBid env (fresh h)))) as [later ->].
  assert (Hstart : exists more,
             trace (snd (tryGetCriteoFastBid env (fresh h))) =
             ([ LogWarn "No hash found in FastBid";
                LogWarn "Invalid Criteo FastBid found";
                RemoveItem "criteo_fast_bid" ] ++ more)%list).
  { unfold tryGetCriteoFastBid, try_catch at 1, bind at 1, read_heap.
    unfold fresh at 1; cbn [heap]; rewrite Hcache.
    rewrite (validate_without_header env fastBid _ Hheader).
    match goal with
    | |- context [try_catch ?m ?k ?s] =>
        destruct (appends_try_catch m k) with (st := s) as [more Hmore];
        [ apply appends_cryptoVerify
        | intros e; apply appends_bind; [apply appends_emit | intros; apply appends_call]
        | destruct (try_catch m k s) as [[[]|e] st1]; simpl in *; exists more; exact Hmore ]
    end. }
  destruct Hstart as [more ->].
  split; apply in_or_app; left; simpl; auto.
Qed.

(** Without a crypto library, a cached script without hash header is run
    all the same, whatever the page and the script. *)
Lemma headerless_script_runs (env : Env) (h : Heap) (fastBid : jsstring) (turns : nat) :
  standardSubtle env = None ->
  window_msCrypto env = None ->
  criteo_fast_bid h = Some fastBid ->
  has_hash_header fastBid = false ->
  executed fastBid (after_fast_bid env h turns).
Proof.
  intros Hstd Hms Hcache Hheader.
  unfold executed, after_fast_bid.
  destruct (drain_appends env turns (snd (tryGetCriteoFastBid env (fresh h)))) as [later ->].
  apply in_or_app; left.
  unfold tryGetCriteoFastBid, try_catch at 1, bind at 1, read_heap.
  unfold fresh at 1; cbn [heap]; rewrite Hcache.
  rewrite (validate_without_header env fastBid _ Hheader).
  unfold try_catch, cryptoVerify; rewrite Hstd, Hms.
  unfold call, removeItem, eval_script, logInfo, logWarn, bind, emit, read_heap,
    write_heap, throw, ret, fresh; simpl.
  repeat match goal with
         | |- context [eval env fastBid ?h] =>
             let h' := fresh "h" in
             destruct (eval env fastBid h) as [[[]|?] h']; simpl
         end; auto 10.
Qed.

(** C3 on the code. On a browser without crypto library, a cached script
    with no hash header is reported invalid and evicted, and then, the
    validation having gone on to the verification, handed to [eval]. *)
Theorem headerless_script_runs_without_crypto :
  has_hash_header unsigned_script = false /\
  trace (after_fast_bid plain_env (cached unsigned_script) 2) =
    [ LogWarn "No hash found in FastBid";
      LogWarn "Invalid Criteo FastBid found";
      RemoveItem "criteo_fast_bid";
      LogInfo "Using Criteo FastBid";
      EvalScript unsigned_script ].
Proof. split; reflexivity. Qed.

(** * Further properties of the adapter *)

(** ** Verdicts on the cached script *)

Lemma settled_verdict (env : Env) (h : Heap) (fastBid signature : jsstring)
    (s : SubtleCrypto) (turns : nat) :
  Verifier env s ->
  criteo_fast_bid h = Some fastBid ->
  has_hash_header fastBid = true ->
  importKey s FAST_BID_PUBKEY FAST_BID_ALGO = true ->
  atob env (fileEncryptedHash_of fastBid) = Some signature ->
  after_fast_bid env h (S (S turns)) =
  drain env turns
    (snd (call env (UseFastBid fastBid)
            (match verdict_on s signature fastBid with
             | Some verdict => Some verdict
             | None => Some false
             end) (fresh h))).
Proof.
  intros Hver Hcache Hheader Himport Hatob.
  unfold after_fast_bid; rewrite (tryGet_cached env h fastBid Hcache Hheader).
  unfold try_catch; rewrite (cryptoVerify_enqueues env s _ _ _ _ _ _ Hver).
  rewrite Himport; unfold enqueue, fresh; simpl.
  unfold run_next; simpl.
  unfold fileEncryptedHash_of in Hatob; rewrite Hatob.
  unfold enqueue; simpl.
  unfold verdict_on, publisherTag_of.
  destruct (verify s FAST_BID_ALGO _ _) as [verdict|]; reflexivity.
Qed.

(** X1. On a working crypto library, a cached script whose hash decodes and
    whose signature is verified is logged as used and handed to [eval],
    once, and kept in the cache; nothing is left with the event loop. *)
Theorem verified_script_runs :
  forall (env : Env) (h : Heap) (fastBid signature : jsstring) (s : SubtleCrypto)
         (turns : nat),
    Verifier env s ->
    criteo_fast_bid h = Some fastBid ->
    has_hash_header fastBid = true ->
    importKey s FAST_BID_PUBKEY FAST_BID_ALGO = true ->
    atob env (fileEncryptedHash_of fastBid) = Some signature ->
    verdict_on s signature fastBid = Some true ->
    (2 <= turns)%nat ->
    trace (after_fast_bid env h turns) =
      [ LogInfo "Using Criteo FastBid"; EvalScript fastBid ] /\
    jobs (after_fast_bid env h turns) = [].
Proof.
  intros env h fastBid signature s turns Hver Hcache Hheader Himport Hatob Htrue Hturns.
  destruct turns as [|[|turns]]; try lia.
  rewrite (settled_verdict env h fastBid signature s turns Hver Hcache Hheader Himport Hatob).
  rewrite Htrue.
  unfold call, eval_script, logInfo, bind, emit, fresh; simpl.
  destruct (eval env fastBid h) as [r h1]; simpl.
  rewrite drain_idle by reflexivity; split; reflexivity.
Qed.

(** X2. On a working crypto library, a cached script whose signature is
    refuted, or whose verification ends with an error, is reported invalid
    and removed from the cache, and is never handed to [eval]. *)
Theorem refuted_script_is_evicted :
  forall (env : Env) (h : Heap) (fastBid signature : jsstring) (s : SubtleCrypto)
         (turns : nat),
    Verifier env s ->
    criteo_fast_bid h = Some fastBid ->
    has_hash_header fastBid = true ->
    importKey s FAST_BID_PUBKEY FAST_BID_ALGO = true ->
    atob env (fileEncryptedHash_of fastBid) = Some signature ->
    verdict_on s signature fastBid <> Some true ->
    (2 <= turns)%nat ->
    trace (after_fast_bid env h turns) =
      [ LogWarn "Invalid Criteo FastBid found"; RemoveItem "criteo_fast_bid" ] /\
    criteo_fast_bid (heap (after_fast_bid env h turns)) = None /\
    jobs (after_fast_bid env h turns) = [].
Proof.
  intros env h fastBid signature s turns Hver Hcache Hheader Himport Hatob Hfalse Hturns.
  destruct turns as [|[|turns]]; try lia.
  rewrite (settled_verdict env h fastBid signature s turns Hver Hcache Hheader Himport Hatob).
  assert (Hverdict : match verdict_on s signature fastBid with
                     | Some verdict => Some verdict
                     | None => Some false
                     end = Some false).
  { destruct (verdict_on s signature fastBid) as [[|]|]; congruence. }
  rewrite Hverdict.
  unfold call, removeItem, logWarn, bind, emit, read_heap, write_heap, fresh; simpl.
  rewrite drain_idle by reflexivity; repeat split; reflexivity.
Qed.

(** The signed sample on a library that accepts it. *)
Lemma verified_script_runs_witness :
  trace (after_fast_bid (verifying_env (Some true)) (cached signed_script) 2) =
    [ LogInfo "Using Criteo FastBid"; EvalScript signed_script ] /\
  jobs (after_fast_bid (verifying_env (Some true)) (cached signed_script) 2) = [].
Proof.
  apply (verified_script_runs (verifying_env (Some true)) (cached signed_script)
           signed_script (fileEncryptedHash_of signed_script)
           (constant_subtle (Some true)) 2).
  - apply (StandardVerifier _ _ {| subtle := Some (constant_subtle (Some true));
                                   webkitSubtle := None |}); reflexivity.
  - reflexivity.
  - reflexivity.
  - reflexivity.
  - reflexivity.
  - reflexivity.
  - apply le_n.
Defined.

(** The signed sample on a library whose verification fails. *)
Lemma refuted_script_is_evicted_witness :
  trace (after_fast_bid (verifying_env None) (cached signed_script) 2) =
    [ LogWarn "Invalid Criteo FastBid found"; RemoveItem "criteo_fast_bid" ] /\
  criteo_fast_bid (heap (after_fast_bid (verifying_env None) (cached signed_script) 2)) = None /\
  jobs (after_fast_bid (verifying_env None) (cached signed_script) 2) = [].
Proof.
  apply (refuted_script_is_evicted (verifying_env None) (cached signed_script)
           signed_script (fileEncryptedHash_of signed_script)
           (constant_subtle None) 2).
  - apply (StandardVerifier _ _ {| subtle := Some (constant_subtle None);
                                   webkitSubtle := None |}); reflexivity.
  - reflexivity.
  - reflexivity.
  - reflexivity.
  - reflexivity.
  - discriminate.
  - apply le_n.
Defined.

(** X4. Without a crypto library, a cached script that throws is handed to
    [eval] twice: the exception lands in the handler of [validateFastBid],
    which calls the callback again; [tryGetCriteoFastBid] itself returns
    normally. *)
Theorem throwing_script_is_evaluated_twice :
  forall (env : Env) (h : Heap) (fastBid : jsstring),
    standardSubtle env = None ->
    window_msCrypto env = None ->
    criteo_fast_bid h = Some fastBid ->
    has_hash_header fastBid = true ->
    (forall h', exists e h'', eval env fastBid h' = (Throw e, h'')) ->
    fst (tryGetCriteoFastBid env (fresh h)) = Ok tt /\
    trace (snd (tryGetCriteoFastBid env (fresh h))) =
      [ LogInfo "Using Criteo FastBid";
        EvalScript fastBid;
        LogWarn "Failed to verify Criteo FastBid";
        LogInfo "Using Criteo FastBid";
        EvalScript fastBid ].
Proof.
  intros env h fastBid Hstd Hms Hcache Hheader Hthrows.
  rewrite (tryGet_cached env h fastBid Hcache Hheader).
  unfold try_catch, cryptoVerify; rewrite Hstd, Hms.
  unfold call, eval_script, logInfo, logWarn, bind, emit, ret, fresh; simpl.
  destruct (Hthrows h) as (e1 & h1 & ->); simpl.
  destruct (Hthrows h1) as (e2 & h2 & ->); simpl.
  split; reflexivity.
Qed.

(** The signed sample on a page where every script throws. *)
Lemma throwing_script_is_evaluated_twice_witness :
  fst (tryGetCriteoFastBid throwing_env (fresh (cached signed_script))) = Ok tt /\
  trace (snd (tryGetCriteoFastBid throwing_env (fresh (cached signed_script)))) =
    [ LogInfo "Using Criteo FastBid";
      EvalScript signed_script;
      LogWarn "Failed to verify Criteo FastBid";
      LogInfo "Using Criteo FastBid";
      EvalScript signed_script ].
Proof.
  apply (throwing_script_is_evaluated_twice throwing_env (cached signed_script)
           signed_script).
  - reflexivity.
  - reflexivity.
  - reflexivity.
  - reflexivity.
  - intros h'; exists ScriptError, h'; reflexivity.
Defined.

(** ** What is left with the event loop *)

Lemma queues_nothing {A : Type} (P : Job -> Prop) (m : M A) :
  (forall st, jobs (snd (m st)) = jobs st) -> queues_at_most 0 P m.
Proof.
  intros H st; exists []; rewrite H, app_nil_r; auto.
Qed.

Lemma queues_ret {A : Type} (P : Job -> Prop) (a : A) : queues_at_most 0 P (ret a).
Proof. now apply queues_nothing. Qed.

Lemma queues_throw {A : Type} (P : Job -> Prop) (e : exn) : queues_at_most 0 P (@throw A e).
Proof. now apply queues_nothing. Qed.

Lemma queues_emit (P : Job -> Prop) (e : Event) : queues_at_most 0 P (emit e).
Proof. now apply queues_nothing. Qed.

Lemma queues_enqueue (P : Job -> Prop) (j : Job) : P j -> queues_at_most 1 P (enqueue j).
Proof. intros Hj st; exists [j]; simpl; auto. Qed.

Lemma queues_more {A : Type} (n n' : nat) (P : Job -> Prop) (m : M A) :
  (n <= n')%nat -> queues_at_most n P m -> queues_at_most n' P m.
Proof.
  intros Hle Hm st; destruct (Hm st) as (pending & Hjobs & Hlen & Hkind).
  exists pending; split; [exact Hjobs | split; [lia | exact Hkind]].
Qed.

Lemma queues_bind {A B : Type} (n n' : nat) (P : Job -> Prop) (m : M A) (k : A -> M B) :
  queues_at_most n P m -> (forall a, queues_at_most n' P (k a)) ->
  queues_at_most (n + n') P (bind m k).
Proof.
  intros Hm Hk st; unfold bind.
  destruct (Hm st) as (pending & Hjobs & Hlen & Hkind).
  destruct (m st) as [[a|e] st1]; simpl in Hjobs.
  - destruct (Hk a st1) as (pending' & Hjobs' & Hlen' & Hkind').
    exists (pending ++ pending')%list; rewrite Hjobs', Hjobs, app_assoc, length_app.
    split; [reflexivity | split; [lia | now apply Forall_app]].
  - exists pending; split; [exact Hjobs | split; [lia | exact Hkind]].
Qed.

Lemma queues_try_catch {A : Type} (n n' : nat) (P : Job -> Prop) (m : M A)
    (handler : exn -> M A) :
  queues_at_most n P m -> (forall e, queues_at_most n' P (handler e)) ->
  queues_at_most (n + n') P (try_catch m handler).
Proof.
  intros Hm Hh st; unfold try_catch.
  destruct (Hm st) as (pending & Hjobs & Hlen & Hkind).
  destruct (m st) as [[a|e] st1]; simpl in Hjobs.
  - exists pending; split; [exact Hjobs | split; [lia | exact Hkind]].
  - destruct (Hh e st1) as (pending' & Hjobs' & Hlen' & Hkind').
    exists (pending ++ pending')%list; rewrite Hjobs', Hjobs, app_assoc, length_app.
    split; [reflexivity | split; [lia | now apply Forall_app]].
Qed.

Lemma queues_call (env : Env) (P : Job -> Prop) (callback : Callback)
    (valid : option bool) :
  queues_at_most 0 P (call env callback valid).
Proof.
  apply queues_nothing; intros st.
  destruct callback as [fastBid]; unfold call.
  destruct valid as [[|]|]; unfold eval_script, removeItem, logInfo, logWarn, bind,
    emit, read_heap, write_heap; simpl;
    try (destruct (eval env fastBid (heap st)) as [r h]); reflexivity.
Qed.

Lemma queues_cryptoVerify (env : Env) (algo key : value) (hash code : jsstring)
    (callback : Callback) :
  queues_at_most 1 awaits_import (cryptoVerify env algo key hash code callback).
Proof.
  unfold cryptoVerify.
  destruct (standardSubtle env).
  - destruct (window_crypto env) as [[[importer|] web]|];
      first [ apply queues_enqueue; exact I
            | apply (queues_more 0 1); [lia | apply queues_throw] ].
  - destruct (window_msCrypto env);
      [ apply queues_enqueue; exact I
      | apply (queues_more 0 1); [lia | apply queues_call] ].
Qed.

Lemma queues_tryGetCriteoFastBid (env : Env) :
  queues_at_most 1 awaits_import (tryGetCriteoFastBid env).
Proof.
  unfold tryGetCriteoFastBid.
  apply (queues_try_catch 1 0); [|intros _; apply queues_ret].
  apply (queues_bind 0 1); [now apply queues_nothing|].
  intros h; destruct (criteo_fast_bid h) as [fastBid|];
    [|apply (queues_more 0 1); [lia | apply queues_ret]].
  unfold validateFastBid.
  apply (queues_bind 0 1).
  - destruct (jsstring_eqb _ _); [apply queues_ret|].
    apply (queues_bind 0 0); [apply queues_emit | intros _; apply queues_call].
  - intros _. apply (queues_try_catch 1 0); [apply queues_cryptoVerify|].
    intros _; apply (queues_bind 0 0); [apply queues_emit | intros _; apply queues_call].
Qed.

Lemma queues_import_settled (env : Env) (imported : bool) (verifier : SubtleCrypto)
    (algo : value) (hash code : jsstring) (callback : Callback) :
  queues_at_most 1 awaits_verdict
    (run_job env (ImportKeySettled imported verifier algo hash code callback)).
Proof.
  simpl; destruct imported.
  - destruct (atob env hash);
      [ apply queues_enqueue; exact I
      | apply (queues_more 0 1); [lia | apply queues_throw] ].
  - apply (queues_more 0 1); [lia | apply queues_call].
Qed.

Lemma queues_verify_settled (env : Env) (outcome : option bool) (callback : Callback) :
  queues_at_most 0 awaits_verdict (run_job env (VerifySettled outcome callback)).
Proof. simpl; destruct outcome; apply queues_call. Qed.

(** Whatever the cached script does, [tryGetCriteoFastBid] returns. *)
Lemma tryGetCriteoFastBid_returns (env : Env) (st : State) :
  fst (tryGetCriteoFastBid env st) = Ok tt.
Proof.
  unfold tryGetCriteoFastBid, try_catch.
  destruct (bind _ _ st) as [[[]|e] st1]; reflexivity.
Qed.

(** ** The first block of the request builder *)

(** X8. With no delegate on the page and a bidder-level request at hand,
    the first block of [buildRequests] returns whatever the cached script
    does, leaves at most one verification pending, and after it schedules
    exactly one reload of the publisher tag, with the request's timeout as
    its delay. *)
Theorem one_reload_is_scheduled :
  forall (env : Env) (st : State) (bidderRequest : value),
    delegate (heap st) = None ->
    nullish bidderRequest = false ->
    exists st1 pending,
      prepare env bidderRequest st = (Ok tt, st1) /\
      jobs st1 =
        (jobs st ++ pending ++ [ ReloadPublisherTag (field bidderRequest "timeout") ])%list /\
      (List.length pending <= 1)%nat /\
      Forall awaits_import pending.
Proof.
  intros env st bidderRequest Hnone Hreq.
  unfold prepare, bind at 1, publisherTagAvailable, bind at 1, read_heap, ret.
  rewrite Hnone.
  unfold bind at 1.
  destruct (disable_prebid_events st) as [r0 st0] eqn:Hdisable.
  assert (Hst0 : r0 = Ok tt /\ jobs st0 = jobs st).
  { unfold disable_prebid_events, bind, read_heap, write_heap in Hdisable.
    injection Hdisable as <- <-; split; reflexivity. }
  destruct Hst0 as [-> Hjobs0].
  unfold bind at 1.
  pose proof (tryGetCriteoFastBid_returns env st0) as Hret.
  destruct (queues_tryGetCriteoFastBid env st0) as (pending & Hjobs & Hlen & Hkind).
  destruct (tryGetCriteoFastBid env st0) as [r1 st1]; simpl in Hret, Hjobs; subst r1.
  unfold bind, lift; rewrite (get_not_nullish bidderRequest "timeout" Hreq).
  eexists; exists pending; split; [reflexivity|].
  simpl; rewrite Hjobs, Hjobs0, app_assoc; auto.
Qed.

(** A page with the signed sample in its cache, and a timeout of 3000. *)
Lemma one_reload_is_scheduled_witness :
  exists st1 pending,
    prepare plain_env sample_bidderRequest (fresh (cached signed_script)) = (Ok tt, st1) /\
    jobs st1 = (pending ++ [ ReloadPublisherTag (VNum 3000) ])%list /\
    (List.length pending <= 1)%nat.
Proof.
  destruct (one_reload_is_scheduled plain_env (fresh (cached signed_script))
              sample_bidderRequest) as (st1 & pending & Hrun & Hjobs & Hlen & _).
  - reflexivity.
  - reflexivity.
  - exists st1, pending; split; [exact Hrun | split; [exact Hjobs | exact Hlen]].
Defined.

(** X9. With no delegate on the page, [buildRequests] called without a
    bidder-level request raises a TypeError at the read of its timeout,
    after the cached script has been tried and before any reload is
    scheduled. *)
Theorem missing_bidderRequest_raises :
  forall (env : Env) (st : State) (batch : list value) (bidderRequest : value),
    delegate (heap st) = None ->
    nullish bidderRequest = true ->
    buildRequests env batch bidderRequest st =
      (Throw TypeError, snd (tryGetCriteoFastBid env (snd (disable_prebid_events st)))).
Proof.
  intros env st batch bidderRequest Hnone Hreq.
  unfold buildRequests, bind at 1, prepare, bind at 1, publisherTagAvailable,
    bind at 1, read_heap, ret.
  rewrite Hnone.
  unfold bind at 1.
  destruct (disable_prebid_events st) as [r0 st0] eqn:Hdisable.
  assert (Hr0 : r0 = Ok tt).
  { unfold disable_prebid_events, bind, read_heap, write_heap in Hdisable.
    now injection Hdisable as <- _. }
  subst r0; unfold bind at 1; simpl snd.
  pose proof (tryGetCriteoFastBid_returns env st0) as Hret.
  destruct (tryGetCriteoFastBid env st0) as [r1 st1]; simpl in Hret; subst r1.
  unfold bind, lift.
  destruct bidderRequest; try discriminate; reflexivity.
Qed.

(** Two SlotRequests and no bidder-level request. *)
Lemma missing_bidderRequest_raises_witness :
  fst (buildRequests plain_env only_second_has_network VUndef (fresh empty_heap))
    = Throw TypeError.
Proof.
  rewrite (missing_bidderRequest_raises plain_env (fresh empty_heap)
             only_second_has_network VUndef); reflexivity.
Defined.

(** ** The delegation switch *)

(** X10. With a delegate on the page, [buildRequests] touches neither the
    cache nor the event loop: it returns the delegate's URL and payload in a
    POST request, and nothing when the delegate's payload is falsy. *)
Theorem buildRequests_defers_to_delegate :
  forall (env : Env) (st : State) (batch : list value) (bidderRequest : value)
         (Prebid : PrebidAdapter),
    delegate (heap st) = Some Prebid ->
    let adapter := new_Prebid Prebid PROFILE_ID ADAPTER_VERSION batch bidderRequest in
    buildRequests env batch bidderRequest st =
      (Ok (if truthy (adapter_buildCdbRequest adapter)
           then VObj [ ("method", VStr "POST");
                       ("url", adapter_buildCdbUrl adapter);
                       ("data", adapter_buildCdbRequest adapter);
                       ("bidRequests", VArr batch) ]
           else VUndef), st).
Proof.
  intros env st batch bidderRequest Prebid Hdel adapter.
  unfold buildRequests, prepare, publisherTagAvailable, bind, read_heap, ret.
  rewrite Hdel; simpl; rewrite Hdel; reflexivity.
Qed.

(** A delegate with nothing to send, and no bidder-level request. *)
Lemma buildRequests_defers_to_delegate_witness :
  buildRequests plain_env only_second_has_network VUndef (fresh (page_with idle_delegate))
    = (Ok VUndef, fresh (page_with idle_delegate)).
Proof.
  apply (buildRequests_defers_to_delegate plain_env (fresh (page_with idle_delegate))
           only_second_has_network VUndef idle_delegate).
  reflexivity.
Defined.

(** X11. The reply is read before the delegate is looked for: a response
    of [undefined] or [null] raises a TypeError at the read of its [body] on
    every page, with a delegate or without, and leaves the page as it was. *)
Theorem nullish_response_raises :
  forall (env : Env) (response request : value) (st : State),
    nullish response = true ->
    interpretResponse env response request st = (Throw TypeError, st).
Proof.
  intros env response request st Hnullish.
  unfold interpretResponse, bind, lift, body_of.
  destruct response; try discriminate Hnullish; reflexivity.
Qed.

(** A reply of [null] on a page with a delegate. *)
Lemma nullish_response_raises_witness :
  interpretResponse plain_env VNull bid1_request (fresh (page_with idle_delegate))
    = (Throw TypeError, fresh (page_with idle_delegate)).
Proof.
  apply (nullish_response_raises plain_env VNull bid1_request
           (fresh (page_with idle_delegate))).
  reflexivity.
Defined.

(** X12. With a delegate on the page, [onTimeout] passes the timeout on to
    the delegate's adapter for the auction, and raises a TypeError when the
    delegate knows none. *)
Theorem onTimeout_needs_an_adapter :
  forall (st : State) (timeoutData : value) (Prebid : PrebidAdapter),
    delegate (heap st) = Some Prebid ->
    nullish timeoutData = false ->
    onTimeout timeoutData st =
      match GetAdapter Prebid (field timeoutData "auctionId") with
      | Some _ =>
          (Ok tt, {| heap := heap st;
                     trace := trace st ++ [ HandleBidTimeout (field timeoutData "auctionId") ];
                     jobs := jobs st |})
      | None => (Throw TypeError, st)
      end.
Proof.
  intros st timeoutData Prebid Hdel Hdata; unfold onTimeout, bind, read_heap, lift.
  rewrite Hdel, (get_not_nullish timeoutData "auctionId" Hdata).
  destruct (GetAdapter Prebid (field timeoutData "auctionId")); reflexivity.
Qed.

(** A delegate that knows no adapter. *)
Lemma onTimeout_needs_an_adapter_witness :
  onTimeout (VObj [ ("auctionId", VStr "auction-1") ]) (fresh (page_with forgetful_delegate))
    = (Throw TypeError, fresh (page_with forgetful_delegate)).
Proof.
  apply (onTimeout_needs_an_adapter (fresh (page_with forgetful_delegate))
           (VObj [ ("auctionId", VStr "auction-1") ]) forgetful_delegate); reflexivity.
Defined.

(** ** The text operations on the cached script *)

Lemma indexOf_from_first (c : N) (before after : jsstring) (i : Z) :
  ~ In c before ->
  indexOf_from c (before ++ c :: after)%list i = (i + Z.of_nat (List.length before))%Z.
Proof.
  revert i; induction before as [|x before IH]; intros i Hnot; simpl.
  - rewrite N.eqb_refl; lia.
  - destruct (N.eqb_spec x c) as [->|_]; [exfalso; apply Hnot; now left|].
    rewrite IH; [lia | intros Hin; apply Hnot; now right].
Qed.

Lemma substr_prefix (before after : jsstring) :
  substr (before ++ after)%list 0 (Some (Z.of_nat (List.length before))) = before.
Proof.
  unfold substr; rewrite length_app.
  change (0 <? 0)%Z with false; cbv iota.
  rewrite (Z.min_l 0) by lia.
  rewrite Z.max_l by lia.
  rewrite !Z.min_l by lia.
  destruct (Z.geb_spec 0 (0 + Z.of_nat (List.length before))) as [Hge | Hlt].
  - destruct before; [reflexivity | simpl in Hge; lia].
  - rewrite Z.sub_0_r, Z.add_0_l, Nat2Z.id; simpl skipn.
    rewrite firstn_app, Nat.sub_diag, firstn_all; simpl; apply app_nil_r.
Qed.

Lemma substr_suffix (before after : jsstring) :
  substr (before ++ after)%list (Z.of_nat (List.length before)) None = after.
Proof.
  unfold substr; rewrite length_app.
  destruct (Z.ltb_spec (Z.of_nat (List.length before)) 0) as [Hneg | _]; [lia|].
  rewrite (Z.min_l (Z.of_nat (List.length before))) by lia.
  rewrite Z.min_r by lia.
  destruct (Z.geb_spec (Z.of_nat (List.length before))
              (Z.of_nat (List.length before + List.length after))) as [Hge | Hlt].
  - destruct after; [reflexivity | simpl in Hge; lia].
  - rewrite Nat2Z.id, skipn_app, Nat.sub_diag, skipn_all; simpl.
    replace (Z.to_nat _) with (List.length after) by lia.
    apply firstn_all.
Qed.

Lemma trimStart_kept (c : N) (s : jsstring) :
  is_whitespace c = false -> trimStart (c :: s) = c :: s.
Proof. intros H; simpl; now rewrite H. Qed.

Lemma trim_kept (c : N) (middle : jsstring) (d : N) :
  is_whitespace c = false ->
  is_whitespace d = false ->
  trim (c :: middle ++ [d])%list = (c :: middle ++ [d])%list.
Proof.
  intros Hc Hd; unfold trim.
  rewrite (trimStart_kept c _ Hc).
  change (c :: middle ++ [d])%list with ((c :: middle) ++ [d])%list.
  transitivity (rev (rev ((c :: middle) ++ [d])%list)); [|apply rev_involutive].
  f_equal; rewrite rev_app_distr.
  change (rev [d] ++ rev (c :: middle))%list with (d :: rev (c :: middle))%list.
  now apply trimStart_kept.
Qed.

(** X5. A cache entry made of the header, a hash that holds no line break
    and does not end in white space, a line break and a script is
    recognised, and the verification is given that hash and that script. *)
Theorem hash_and_script_are_split :
  forall hash body : jsstring,
    ~ In newline hash ->
    is_whitespace (last hash newline) = false ->
    let fastBid := (units "// Hash: " ++ hash ++ newline :: body)%list in
    has_hash_header fastBid = true /\
    fileEncryptedHash_of fastBid = hash /\
    publisherTag_of fastBid = body.
Proof.
  intros hash body Hline Hlast fastBid.
  assert (Hhash : hash <> []) by (intros ->; discriminate Hlast).
  assert (Hnot : ~ In newline (units "// Hash: " ++ hash)%list).
  { intros Hin; apply in_app_or in Hin as [Hin | Hin]; [|now apply Hline].
    simpl in Hin; unfold newline in Hin.
    repeat (destruct Hin as [Hin | Hin]; [discriminate|]); exact Hin. }
  assert (Hend : indexOf newline fastBid =
                 Z.of_nat (List.length (units "// Hash: " ++ hash)%list)).
  { unfold indexOf, fastBid; rewrite app_assoc.
    now rewrite (indexOf_from_first newline _ body 0 Hnot). }
  assert (Hfirst : firstLine_of fastBid = (units "// Hash: " ++ hash)%list).
  { unfold firstLine_of; rewrite Hend.
    unfold fastBid; rewrite app_assoc, substr_prefix.
    rewrite (app_removelast_last newline Hhash).
    change (units "// Hash: " ++ removelast hash ++ [last hash newline])%list
      with (47%N :: (skipn 1 (units "// Hash: ") ++ removelast hash)
              ++ [last hash newline])%list at 1.
    rewrite trim_kept by (reflexivity || exact Hlast).
    reflexivity. }
  split; [|split].
  - unfold has_hash_header; rewrite Hfirst.
    change (Some 9%Z) with (Some (Z.of_nat (List.length (units "// Hash: ")))).
    now rewrite (substr_prefix (units "// Hash: ") hash).
  - unfold fileEncryptedHash_of; rewrite Hfirst.
    apply (substr_suffix (units "// Hash: ") hash).
  - unfold publisherTag_of; rewrite Hend.
    replace (Z.of_nat (List.length (units "// Hash: " ++ hash)%list) + 1)%Z
      with (Z.of_nat (List.length ((units "// Hash: " ++ hash) ++ [newline])%list))
      by (rewrite (length_app _ [newline]); simpl List.length; lia).
    unfold fastBid.
    replace (units "// Hash: " ++ hash ++ newline :: body)%list
      with (((units "// Hash: " ++ hash) ++ [newline]) ++ body)%list
      by (now rewrite <- !app_assoc).
    apply substr_suffix.
Qed.

(** The signed sample. *)
Lemma hash_and_script_are_split_witness :
  has_hash_header signed_script = true /\
  fileEncryptedHash_of signed_script = units "c2lnbmF0dXJl" /\
  publisherTag_of signed_script = units "window.Criteo = {};".
Proof.
  apply (hash_and_script_are_split (units "c2lnbmF0dXJl") (units "window.Criteo = {};")).
  - simpl; unfold newline; intros Hin.
    repeat (destruct Hin as [Hin | Hin]; [discriminate|]); exact Hin.
  - reflexivity.
Defined.

(** X6. [str2ab] gives one byte per code unit: the byte at each position
    is the code unit at that position modulo 256, so every byte is below
    256, and a sequence of code units below 256 is mapped to itself. *)
Theorem str2ab_bytes :
  forall (str : jsstring) (i : nat),
    List.length (str2ab str) = List.length str /\
    nth i (str2ab str) 0%N = (nth i str 0 mod 256)%N /\
    Forall (fun byte => (byte < 256)%N) (str2ab str) /\
    (Forall (fun c => (c < 256)%N) str -> str2ab str = str).
Proof.
  intros str i; unfold str2ab; split; [apply length_map|split; [|split]].
  - change 0%N with ((fun c => c mod 256)%N 0%N) at 1; apply map_nth.
  - apply Forall_forall; intros byte Hin.
    apply in_map_iff in Hin as (c & <- & _).
    now apply N.mod_lt.
  - induction 1 as [|c cs Hc _ IH]; [reflexivity|].
    simpl; rewrite IH, (N.mod_small c 256 Hc); reflexivity.
Qed.

(** A code unit above 255 is cut down to its low byte, and bytes stay. *)
Lemma str2ab_bytes_witness :
  nth 0 (str2ab [ 375; 98 ]%N) 0%N = 119%N /\
  str2ab [ 119; 98 ]%N = [ 119; 98 ]%N.
Proof.
  split.
  - destruct (str2ab_bytes [ 375; 98 ]%N 0) as (_ & Hbyte & _); exact Hbyte.
  - destruct (str2ab_bytes [ 119; 98 ]%N 0) as (_ & _ & _ & Hsame).
    apply Hsame; repeat constructor.
Defined.

(** X7. The verification sees the script through [str2ab] only: scripts
    whose code units agree modulo 256 get the same verdict. *)
Theorem verdict_sees_bytes_only :
  forall (s : SubtleCrypto) (signature fastBid fastBid' : jsstring),
    Forall2 (fun c c' => (c mod 256 = c' mod 256)%N)
            (publisherTag_of fastBid) (publisherTag_of fastBid') ->
    verdict_on s signature fastBid = verdict_on s signature fastBid'.
Proof.
  intros s signature fastBid fastBid' Hsame; unfold verdict_on; f_equal.
  unfold str2ab; induction Hsame as [|c c' cs cs' Hc _ IH]; simpl; congruence.
Qed.

(** The signed sample and its copy with the first code unit raised by
    256. *)
Lemma verdict_sees_bytes_only_witness :
  verdict_on first_byte_subtle (units "signature") signed_script =
  verdict_on first_byte_subtle (units "signature") widened_script.
Proof.
  apply (verdict_sees_bytes_only first_byte_subtle (units "signature")
           signed_script widened_script).
  change (publisherTag_of signed_script) with (units "window.Criteo = {};").
  change (publisherTag_of widened_script) with (375%N :: units "indow.Criteo = {};").
  repeat constructor.
Defined.

(** ** The slots and the consent block of the payload *)

Lemma mapM_size_text (env : Env) (sizes : list value) :
  forallb (fun size => negb (nullish size)) sizes = true ->
  mapM (size_text env) sizes =
  Ok (map (fun size =>
             VStr (ToString env (at_index size 0) ++ "x" ++ ToString env (at_index size 1)))
          sizes).
Proof.
  induction sizes as [|size sizes IH]; intros Hall; [reflexivity|].
  simpl in Hall; apply andb_true_iff in Hall as [Hsize Hrest].
  simpl mapM; rewrite (IH Hrest).
  unfold size_text, at_index.
  destruct size; try discriminate; reflexivity.
Qed.

Lemma buildSlot_entry (env : Env) (networkId bidRequest : value) :
  well_formed bidRequest = true ->
  buildSlot env networkId bidRequest =
    Ok (pick networkId (param bidRequest "networkId"), slot_entry env bidRequest).
Proof.
  unfold well_formed; intros H.
  apply andb_true_iff in H as [Hp Hsizes].
  assert (Hobj : nullish bidRequest = false).
  { unfold has_params in Hp; destruct bidRequest; try reflexivity; discriminate. }
  unfold slot_entry.
  destruct (field bidRequest "sizes") as [| | | | | |sizes|] eqn:Hs; try discriminate.
  unfold buildSlot.
  destruct (has_params_get bidRequest "networkId" Hp) as [Hparams Hn].
  rewrite Hparams; simpl rbind; rewrite Hn; simpl rbind.
  rewrite !(get_not_nullish bidRequest _ Hobj), Hs; simpl rbind.
  rewrite (mapM_size_text env sizes Hsizes); simpl rbind.
  destruct (has_params_get bidRequest "zoneId" Hp) as [_ ->]; simpl rbind.
  destruct (has_params_get bidRequest "publisherSubId" Hp) as [_ ->]; simpl rbind.
  destruct (has_params_get bidRequest "nativeCallback" Hp) as [_ ->]; simpl rbind.
  unfold pick, js_or.
  destruct (truthy (param bidRequest "zoneId")),
           (truthy (param bidRequest "publisherSubId")),
           (truthy (param bidRequest "nativeCallback")); reflexivity.
Qed.

Lemma buildSlots_entries (env : Env) (batch : list value) :
  Forall (fun b => well_formed b = true) batch ->
  forall networkId,
    buildSlots env networkId batch =
      Ok (fold_left pick (map (fun b => param b "networkId") batch) networkId,
          map (slot_entry env) batch).
Proof.
  induction 1 as [|b batch Hb _ IH]; intros networkId; [reflexivity|].
  simpl buildSlots; rewrite (buildSlot_entry env networkId b Hb); simpl rbind.
  rewrite IH; reflexivity.
Qed.

Lemma gdprConsent_block_entry (gdprConsent : value) :
  truthy gdprConsent = true ->
  gdprConsent_block gdprConsent = Ok (consent_entry gdprConsent).
Proof.
  intros H; apply truthy_not_nullish in H; unfold gdprConsent_block, consent_entry.
  rewrite !(get_not_nullish gdprConsent _ H); simpl rbind.
  destruct (truthy (field gdprConsent "vendorData")) eqn:Hv; [|reflexivity].
  rewrite (get_not_nullish _ "vendorConsents" (truthy_not_nullish _ Hv)); simpl rbind.
  destruct (truthy (field (field gdprConsent "vendorData") "vendorConsents")) eqn:Hc;
    [|reflexivity].
  rewrite (get_index_not_nullish _ _ (truthy_not_nullish _ Hc)); reflexivity.
Qed.

(** X13. The payload of a batch the builder can serialise has one slot per
    SlotRequest, in order: the ids and the size texts always, and the zone,
    the sub-publisher and the native flag only where the SlotRequest's
    parameter is truthy. *)
Theorem payload_slots_mirror_the_batch :
  forall (env : Env) (context : CriteoContext) (batch : list value) (bidderRequest : value),
    Forall (fun b => well_formed b = true) batch ->
    exists request,
      buildCdbRequest env context batch bidderRequest = Ok request /\
      field request "slots" = VArr (map (slot_entry env) batch).
Proof.
  intros env context batch bidderRequest Hwf.
  unfold buildCdbRequest; rewrite (buildSlots_entries env batch Hwf); simpl rbind.
  destruct (truthy bidderRequest) eqn:Hb.
  - rewrite (get_not_nullish _ "gdprConsent" (truthy_not_nullish _ Hb)); simpl rbind.
    destruct (truthy (field bidderRequest "gdprConsent")) eqn:Hg.
    + rewrite (gdprConsent_block_entry _ Hg); simpl rbind.
      eexists; split; reflexivity.
    + eexists; split; reflexivity.
  - eexists; split; reflexivity.
Qed.

(** X14. The payload carries a consent block exactly when the bidder-level
    request has truthy consent data; consent is given only when the vendors'
    consents have a truthy entry under 91 (the property of an object, the
    element of an array), and is false when they are missing. *)
Theorem payload_consent_block :
  forall (env : Env) (context : CriteoContext) (batch : list value) (bidderRequest : value),
    Forall (fun b => well_formed b = true) batch ->
    exists request,
      buildCdbRequest env context batch bidderRequest = Ok request /\
      field request "gdprConsent" =
        (if truthy (field bidderRequest "gdprConsent")
         then consent_entry (field bidderRequest "gdprConsent")
         else VUndef).
Proof.
  intros env context batch bidderRequest Hwf.
  unfold buildCdbRequest; rewrite (buildSlots_entries env batch Hwf); simpl rbind.
  destruct (truthy bidderRequest) eqn:Hb.
  - rewrite (get_not_nullish _ "gdprConsent" (truthy_not_nullish _ Hb)); simpl rbind.
    destruct (truthy (field bidderRequest "gdprConsent")) eqn:Hg.
    + rewrite (gdprConsent_block_entry _ Hg); simpl rbind.
      eexists; split; reflexivity.
    + eexists; split; reflexivity.
  - assert (Hg : truthy (field bidderRequest "gdprConsent") = false).
    { destruct bidderRequest; try reflexivity; discriminate. }
    rewrite Hg; eexists; split; reflexivity.
Qed.

(** Two SlotRequests, the first with a zone. *)
Lemma payload_slots_mirror_the_batch_witness :
  exists request,
    buildCdbRequest plain_env sample_context only_second_has_network sample_bidderRequest
      = Ok request /\
    field request "slots" =
      VArr [ VObj [ ("impid", VStr "div1");
                    ("transactionid", VUndef);
                    ("auctionId", VUndef);
                    ("sizes", VArr [ VStr "300x250" ]);
                    ("zoneid", VNum 7) ];
             VObj [ ("impid", VStr "div2");
                    ("transactionid", VUndef);
                    ("auctionId", VUndef);
                    ("sizes", VArr [ VStr "300x250" ]) ] ].
Proof.
  destruct (payload_slots_mirror_the_batch plain_env sample_context
              only_second_has_network sample_bidderRequest)
    as (request & Hrun & Hslots).
  - repeat constructor.
  - exists request; split; [exact Hrun | exact Hslots].
Defined.

(** Consent data without vendors' consents, and with an array of them. *)
Lemma payload_consent_block_witness :
  (exists request,
     buildCdbRequest plain_env sample_context only_second_has_network
       consenting_bidderRequest = Ok request /\
     field request "gdprConsent" =
       VObj [ ("gdprApplies", VBool true);
              ("consentData", VStr "BOJ/P2HOJ/P2HABABMAAAAAZ+A==");
              ("consentGiven", VBool false) ]) /\
  (exists request,
     buildCdbRequest plain_env sample_context only_second_has_network
       array_consent_bidderRequest = Ok request /\
     field request "gdprConsent" =
       VObj [ ("gdprApplies", VBool true);
              ("consentData", VStr "BOJ/P2HOJ/P2HABABMAAAAAZ+A==");
              ("consentGiven", VBool true) ]).
Proof.
  split.
  - destruct (payload_consent_block plain_env sample_context only_second_has_network
                consenting_bidderRequest) as (request & Hrun & Hblock).
    + repeat constructor.
    + exists request; split; [exact Hrun | exact Hblock].
  - destruct (payload_consent_block plain_env sample_context only_second_has_network
                array_consent_bidderRequest) as (request & Hrun & Hblock).
    + repeat constructor.
    + exists request; split; [exact Hrun | exact Hblock].
Defined.

(** ** The flags of the request URL *)

Lemma includes_debug_after_numeral (u : Decimal.uint) (rest : string) :
  includes "&debug=1" (NilEmpty.string_of_uint u ++ rest) = includes "&debug=1" rest.
Proof.
  induction u; simpl NilEmpty.string_of_uint; simpl append;
    [reflexivity | exact IHu ..].
Qed.

Lemma includes_nolog_after_numeral (u : Decimal.uint) (rest : string) :
  includes "&nolog=1" (NilEmpty.string_of_uint u ++ rest) = includes "&nolog=1" rest.
Proof.
  induction u; simpl NilEmpty.string_of_uint; simpl append;
    [reflexivity | exact IHu ..].
Qed.

Lemma buildContext_flags (env : Env) (batch : list value) (context : CriteoContext) :
  buildContext env batch = Ok context ->
  ctx_url context = getTopWindowUrl env /\
  ctx_debug context = query_flag env "pbt_debug" /\
  ctx_noLog context = query_flag env "pbt_nolog".
Proof.
  unfold buildContext.
  set (body := fun context bidRequest => _).
  set (start := {| ctx_url := _ |}).
  change (getTopWindowUrl env) with (ctx_url start).
  change (query_flag env "pbt_debug") with (ctx_debug start).
  change (query_flag env "pbt_nolog") with (ctx_noLog start).
  generalize start; clear start.
  induction batch as [|b batch IH]; intros start Hrun.
  - injection Hrun as <-; auto.
  - simpl foldM in Hrun; unfold body at 1 in Hrun.
    destruct (get b "params") as [params|]; [|discriminate].
    simpl rbind in Hrun.
    destruct (get params "integrationMode") as [mode|]; [|discriminate].
    simpl rbind in Hrun.
    destruct (truthy mode); simpl rbind in Hrun; apply IH in Hrun; exact Hrun.
Qed.

Lemma query_flag_set (env : Env) (k : string) :
  query_flag env k = true <-> lookup k (search env) = Some (VStr "1").
Proof.
  unfold query_flag; destruct (lookup k (search env)) as [v|]; [|split; discriminate].
  split.
  - destruct v; simpl; try discriminate.
    intros H; apply String.eqb_eq in H; now subst.
  - intros H; injection H as ->; reflexivity.
Qed.

Lemma flags_of_plain_mode (env : Env) (context : CriteoContext) :
  ctx_integrationMode context = VUndef \/
  (truthy (ctx_integrationMode context) = true /\
   plain_mode (ctx_integrationMode context) = true) ->
  includes "&debug=1" (url_flags env context) = ctx_debug context /\
  includes "&nolog=1" (url_flags env context) = ctx_noLog context.
Proof.
  intros Hmode; unfold url_flags.
  destruct (in_INTEGRATION_MODES (ToString env (ctx_integrationMode context))) eqn:Hin.
  - assert (Hamp : ctx_integrationMode context = VStr "amp").
    { destruct Hmode as [Hnone | [Ht Hplain]].
      - rewrite Hnone in Hin; discriminate.
      - now apply (plain_mode_in env). }
    rewrite Hamp.
    destruct (ctx_debug context), (ctx_noLog context); split; reflexivity.
  - destruct (ctx_debug context), (ctx_noLog context); split; reflexivity.
Qed.

(** X15. For a batch with plain integration modes, the URL carries
    [&debug=1] exactly when the page's query has [pbt_debug] equal to the
    string 1, and [&nolog=1] exactly when it has [pbt_nolog] equal to it. *)
Theorem url_flags_follow_the_query :
  forall (env : Env) (batch : list value),
    Forall (fun b => has_params b = true) batch ->
    Forall (fun b => plain_mode (param b "integrationMode") = true) batch ->
    exists context,
      buildContext env batch = Ok context /\
      (includes "&debug=1" (buildCdbUrl env context) = true <->
       lookup "pbt_debug" (search env) = Some (VStr "1")) /\
      (includes "&nolog=1" (buildCdbUrl env context) = true <->
       lookup "pbt_nolog" (search env) = Some (VStr "1")).
Proof.
  intros env batch Hwf Hplain.
  destruct (buildContext_mode env batch Hwf) as (context & Hrun & Hmode).
  destruct (buildContext_flags env batch context Hrun) as (_ & Hdebug & Hnolog).
  exists context; split; [exact Hrun|].
  assert (Hflags : includes "&debug=1" (url_flags env context) = ctx_debug context /\
                   includes "&nolog=1" (url_flags env context) = ctx_noLog context).
  { apply flags_of_plain_mode.
    destruct (truthy (ctx_integrationMode context)) eqn:Ht.
    - right; split; [reflexivity|].
      rewrite Hmode in Ht |- *.
      apply last_truthy_in, in_map_iff in Ht as (b & <- & Hb).
      rewrite Forall_forall in Hplain; now apply Hplain.
    - left; rewrite Hmode in Ht |- *; now apply last_truthy_falsy. }
  destruct Hflags as [Hd Hn].
  rewrite buildCdbUrl_shape.
  split.
  - transitivity (includes "&debug=1" (url_flags env context) = true).
    + change (includes "&debug=1" (url_head ++ dec (random_cb env) ++ url_flags env context))
        with (includes "&debug=1" (dec (random_cb env) ++ url_flags env context)).
      unfold dec; now rewrite includes_debug_after_numeral.
    + rewrite Hd, Hdebug; apply query_flag_set.
  - transitivity (includes "&nolog=1" (url_flags env context) = true).
    + change (includes "&nolog=1" (url_head ++ dec (random_cb env) ++ url_flags env context))
        with (includes "&nolog=1" (dec (random_cb env) ++ url_flags env context)).
      unfold dec; now rewrite includes_nolog_after_numeral.
    + rewrite Hn, Hnolog; apply query_flag_set.
Qed.

(** A page opened with both flags. *)
Lemma url_flags_follow_the_query_witness :
  exists context,
    buildContext flagged_env only_second_has_network = Ok context /\
    includes "&debug=1" (buildCdbUrl flagged_env context) = true /\
    includes "&nolog=1" (buildCdbUrl flagged_env context) = true.
Proof.
  destruct (url_flags_follow_the_query flagged_env only_second_has_network)
    as (context & Hrun & Hdebug & Hnolog).
  - repeat constructor.
  - repeat constructor.
  - exists context; split; [exact Hrun|].
    split; [apply Hdebug | apply Hnolog]; reflexivity.
Defined.

(** ** The table of native slots *)

Lemma lookup_set_field_same (k : string) (v : value) (fields : list (string * value)) :
  lookup k (set_field k v fields) = Some v.
Proof.
  induction fields as [|[k' v'] fields IH]; simpl.
  - now rewrite String.eqb_refl.
  - destruct (String.eqb k k') eqn:Hk; simpl; rewrite ?String.eqb_refl; [reflexivity|].
    now rewrite Hk.
Qed.

Lemma lookup_set_field_other (k k' : string) (v : value) (fields : list (string * value)) :
  k' <> k -> lookup k' (set_field k v fields) = lookup k' fields.
Proof.
  intros Hneq; apply String.eqb_neq in Hneq.
  induction fields as [|[k0 v0] fields IH]; simpl.
  - now rewrite Hneq.
  - destruct (String.eqb k k0) eqn:Hk; simpl.
    + apply String.eqb_eq in Hk; subst k0; now rewrite Hneq.
    + destruct (String.eqb k' k0); [reflexivity | exact IH].
Qed.

Lemma includes_step (pat s : string) :
  includes pat s =
  String.prefix pat s ||
  match s with EmptyString => false | String _ rest => includes pat rest end.
Proof. destruct s; reflexivity. Qed.

Lemma includes_app_r (pat a b : string) :
  includes pat b = true -> includes pat (a ++ b) = true.
Proof.
  intros H; induction a as [|c a IH]; [exact H|].
  simpl append; rewrite includes_step, IH; apply orb_true_r.
Qed.

Lemma prefix_app_self (pat rest : string) : String.prefix pat (pat ++ rest) = true.
Proof.
  induction pat as [|c pat IH]; simpl.
  - destruct rest; reflexivity.
  - destruct (ascii_dec c c); [exact IH | contradiction].
Qed.

Lemma includes_at_start (pat rest : string) : includes pat (pat ++ rest) = true.
Proof. rewrite includes_step, prefix_app_self; reflexivity. Qed.

(** X16. [createNativeAd] returns markup that quotes the id, and leaves the
    callback and the payload in the page's table under that id, replacing
    what was there under it and keeping every other entry. *)
Theorem createNativeAd_registers :
  forall (env : Env) (id payload callback : value) (st : State),
    let old := match criteo_prebid_native_slots (heap st) with
               | Some table => table
               | None => []
               end in
    exists markup table,
      fst (createNativeAd env id payload callback st) = Ok (VStr markup) /\
      includes (quote ++ ToString env id ++ quote) markup = true /\
      criteo_prebid_native_slots (heap (snd (createNativeAd env id payload callback st)))
        = Some table /\
      lookup (ToString env id) table
        = Some (VObj [ ("callback", callback); ("payload", payload) ]) /\
      (forall k, k <> ToString env id -> lookup k table = lookup k old).
Proof.
  intros env id payload callback st old.
  unfold createNativeAd, bind, read_heap, write_heap, ret.
  cbn [fst snd heap criteo_prebid_native_slots].
  eexists; eexists; split; [reflexivity|].
  split; [|split; [reflexivity|split]].
  - repeat match goal with
           | |- includes _ (quote ++ ToString _ _ ++ _) = true => fail 1
           | |- _ => apply includes_app_r
           end.
    match goal with
    | |- includes _ (quote ++ ToString env id ++ quote ++ ?rest) = true =>
        rewrite <- (append_assoc (ToString env id) quote rest),
                <- (append_assoc quote (ToString env id ++ quote) rest)
    end.
    apply includes_at_start.
  - apply lookup_set_field_same.
  - intros k Hk; now apply lookup_set_field_other.
Qed.

Lemma interpretSlot_native (env : Env) (request slot b : value) (batch : list value)
    (st : State) :
  get request "bidRequests" = Ok (VArr batch) ->
  find_first (correlates slot) batch = Ok b ->
  nullish b = false ->
  truthy (field slot "native") = true ->
  interpretSlot env request slot st =
    (let '(ad, st') := createNativeAd env (field b "bidId") (field slot "native")
                         (param b "nativeCallback") st in
     (match ad with
      | Ok markup => Ok (bid_of slot b markup)
      | Throw e => Throw e
      end, st')).
Proof.
  intros Hbatch Hfind Hb Hnative.
  destruct (find_first_hit _ _ _ Hfind Hb) as [_ Hcor].
  destruct (correlates_true _ _ Hcor) as [Hslot Hparams].
  unfold interpretSlot, bind, lift.
  rewrite Hbatch; simpl as_array; cbv iota beta.
  rewrite Hfind, (get_not_nullish b "bidId" Hb).
  rewrite !(get_not_nullish slot _ Hslot), Hnative.
  rewrite (get_not_nullish b "params").
  2:{ destruct b; try reflexivity; discriminate. }
  rewrite (get_not_nullish _ "nativeCallback" Hparams).
  unfold param.
  destruct (createNativeAd env _ _ _ st) as [[markup|e] st']; reflexivity.
Qed.

Lemma interpretSlot_creative (env : Env) (request slot b : value) (batch : list value)
    (st : State) :
  get request "bidRequests" = Ok (VArr batch) ->
  find_first (correlates slot) batch = Ok b ->
  nullish b = false ->
  truthy (field slot "native") = false ->
  interpretSlot env request slot st = (Ok (bid_of slot b (field slot "creative")), st).
Proof.
  intros Hbatch Hfind Hb Hnative.
  destruct (find_first_hit _ _ _ Hfind Hb) as [_ Hcor].
  destruct (correlates_true _ _ Hcor) as [Hslot Hparams].
  unfold interpretSlot, bind, lift.
  rewrite Hbatch; simpl as_array; cbv iota beta.
  rewrite Hfind, (get_not_nullish b "bidId" Hb).
  rewrite !(get_not_nullish slot _ Hslot), Hnative.
  reflexivity.
Qed.

(** X17. The bid for a matched native slot has for its ad the markup that
    quotes the bid's requestId, and the page's table holds, under that id,
    the slot's native payload with the SlotRequest's callback. *)
Theorem native_bid_hands_over_its_payload :
  forall (env : Env) (request slot b : value) (batch : list value) (st : State),
    get request "bidRequests" = Ok (VArr batch) ->
    find_first (correlates slot) batch = Ok b ->
    nullish b = false ->
    truthy (field slot "native") = true ->
    exists bid st' markup table,
      interpretSlot env request slot st = (Ok bid, st') /\
      field bid "ad" = VStr markup /\
      includes (quote ++ ToString env (field bid "requestId") ++ quote) markup = true /\
      criteo_prebid_native_slots (heap st') = Some table /\
      lookup (ToString env (field bid "requestId")) table =
        Some (VObj [ ("callback", param b "nativeCallback");
                     ("payload", field slot "native") ]).
Proof.
  intros env request slot b batch st Hbatch Hfind Hb Hnative.
  rewrite (interpretSlot_native env request slot b batch st Hbatch Hfind Hb Hnative).
  unfold createNativeAd, bind, read_heap, write_heap, ret.
  eexists; eexists; eexists; eexists; split; [reflexivity|].
  split; [reflexivity|].
  cbn [heap criteo_prebid_native_slots].
  split; [|split; [reflexivity | apply lookup_set_field_same]].
  change (field (bid_of slot b _) "requestId") with (field b "bidId").
  repeat match goal with
         | |- includes _ (quote ++ ToString _ _ ++ _) = true => fail 1
         | |- _ => apply includes_app_r
         end.
  match goal with
  | |- includes _ (quote ++ ?id ++ quote ++ ?rest) = true =>
      rewrite <- (append_assoc id quote rest),
              <- (append_assoc quote (id ++ quote) rest)
  end.
  apply includes_at_start.
Qed.

(** A native slot for [div1] and the SlotRequest with callback it answers. *)
Lemma native_bid_hands_over_its_payload_witness :
  exists bid st' markup table,
    interpretSlot plain_env native_request native_slot (fresh empty_heap) = (Ok bid, st') /\
    field bid "ad" = VStr markup /\
    criteo_prebid_native_slots (heap st') = Some table /\
    lookup "bid-1" table =
      Some (VObj [ ("callback", VFun 1);
                   ("payload", VObj [ ("title", VStr "Offer") ]) ]).
Proof.
  destruct (native_bid_hands_over_its_payload plain_env native_request native_slot
              (slot_request "div1" "bid-1"
                 [ ("zoneId", VNum 7); ("nativeCallback", VFun 1) ])
              [ slot_request "div1" "bid-1"
                  [ ("zoneId", VNum 7); ("nativeCallback", VFun 1) ] ]
              (fresh empty_heap))
    as (bid & st' & markup & table & Hrun & Had & _ & Htable & Hentry).
  - reflexivity.
  - reflexivity.
  - reflexivity.
  - reflexivity.
  - exists bid, st', markup, table.
    split; [exact Hrun | split; [exact Had | split; [exact Htable|]]].
    assert (Hid : field bid "requestId" = VStr "bid-1").
    { pose proof (interpretSlot_answers _ _ _ _ _ _ Hrun) as [_ (batch & b & Hb & Hin & Hreq)].
      injection Hb as <-.
      destruct Hin as [<- | []]; exact Hreq. }
    rewrite Hid in Hentry; exact Hentry.
Defined.

(** X18. When every slot of the reply is matched and none is native, the
    interpreter leaves the page as it was, and each bid's ad is its slot's
    creative. *)
Theorem creative_bids_leave_the_page_alone :
  forall (env : Env) (response request body : value) (slots batch : list value)
         (st : State),
    delegate (heap st) = None ->
    body_of response = Ok body ->
    get body "slots" = Ok (VArr slots) ->
    get request "bidRequests" = Ok (VArr batch) ->
    Forall (fun slot => matched slot batch /\ truthy (field slot "native") = false) slots ->
    exists bids,
      interpretResponse env response request st = (Ok bids, st) /\
      Forall2 (fun slot bid => field bid "ad" = field slot "creative") slots bids.
Proof.
  intros env response request body slots batch st Hnone Hbody Hslots Hbatch Hall.
  rewrite (interpretResponse_local env response request st Hnone), Hbody.
  unfold interpretLocally, bind, lift.
  assert (Htruthy : truthy body = true).
  { destruct body; simpl in Hslots; try discriminate; reflexivity. }
  rewrite Htruthy, Hslots; simpl.
  clear Hslots Htruthy Hbody.
  induction Hall as [|slot slots [(b & Hfind & Hb) Hnative] _ (bids & Hrun & Hads)].
  - exists []; split; [reflexivity | constructor].
  - exists (bid_of slot b (field slot "creative") :: bids).
    simpl interpretSlots; unfold bind.
    rewrite (interpretSlot_creative env request slot b batch st Hbatch Hfind Hb Hnative).
    rewrite Hrun; split; [reflexivity | constructor; [reflexivity | exact Hads]].
Qed.

(** A slot with a creative. *)
Lemma creative_bids_leave_the_page_alone_witness :
  exists bid,
    interpretResponse plain_env
      (VObj [ ("body", VObj [ ("slots", VArr [ creative_slot ]) ]) ])
      bid1_request (fresh empty_heap) = (Ok [ bid ], fresh empty_heap) /\
    field bid "ad" = VStr "<div>ad</div>".
Proof.
  destruct (creative_bids_leave_the_page_alone plain_env
              (VObj [ ("body", VObj [ ("slots", VArr [ creative_slot ]) ]) ])
              bid1_request (VObj [ ("slots", VArr [ creative_slot ]) ])
              [ creative_slot ]
              [ slot_request "div1" "bid-1" [ ("zoneId", VNum 7) ] ]
              (fresh empty_heap)) as (bids & Hrun & Hads).
  - reflexivity.
  - reflexivity.
  - reflexivity.
  - reflexivity.
  - constructor; [|constructor].
    split; [eexists; split; reflexivity | reflexivity].
  - destruct bids as [|bid [|other bids]].
    + exfalso; inversion Hads.
    + exists bid; split; [exact Hrun|].
      inversion Hads; assumption.
    + exfalso; inversion Hads as [|? ? ? ? _ Hrest]; inversion Hrest.
Defined.

(** ** From the builder to the interpreter and back *)

Lemma find_first_total (p : value -> result bool) (xs : list value) :
  (forall x, In x xs -> exists answer, p x = Ok answer) ->
  (exists x, In x xs /\ p x = Ok true) ->
  exists hit, find_first p xs = Ok hit /\ In hit xs /\ p hit = Ok true.
Proof.
  induction xs as [|x xs IH]; intros Hall (y & Hin & Hy); [destruct Hin|].
  destruct (Hall x (or_introl eq_refl)) as [[|] Hx]; simpl; rewrite Hx; simpl.
  - exists x; auto with datatypes.
  - destruct IH as (hit & Hfind & Hhit & Hp).
    + intros z Hz; apply Hall; now right.
    + destruct Hin as [<- | Hin]; [congruence | exists y; auto].
    + exists hit; auto with datatypes.
Qed.

Lemma well_formed_not_nullish (b : value) : well_formed b = true -> nullish b = false.
Proof.
  unfold well_formed, has_params; intros H.
  apply andb_true_iff in H as [H _].
  destruct b; try reflexivity; discriminate.
Qed.

Lemma slot_entry_key (env : Env) (b : value) :
  echoable b = true ->
  field (slot_entry env b) "impid" = field b "adUnitCode" /\
  field (slot_entry env b) "zoneid" = param b "zoneId".
Proof.
  unfold echoable; intros H; apply andb_true_iff in H as [_ Hzone].
  unfold slot_entry.
  split; [reflexivity|].
  set (zoneId := param b "zoneId") in *.
  destruct (truthy zoneId) eqn:Ht.
  - destruct (truthy (param b "publisherSubId")), (truthy (param b "nativeCallback"));
      reflexivity.
  - assert (Hnone : zoneId = VUndef).
    { destruct zoneId; try reflexivity; rewrite Ht in Hzone; discriminate. }
    rewrite Hnone.
    destruct (truthy (param b "publisherSubId")), (truthy (param b "nativeCallback"));
      reflexivity.
Qed.

Lemma correlates_well_formed (slot x : value) :
  nullish slot = false ->
  well_formed x = true ->
  correlates slot x =
    Ok (strict_equals (field x "adUnitCode") (field slot "impid") &&
        strict_equals (param x "zoneId") (field slot "zoneid")).
Proof.
  intros Hslot Hx.
  pose proof (well_formed_not_nullish x Hx) as Hobj.
  unfold well_formed in Hx; apply andb_true_iff in Hx as [Hp _].
  unfold correlates.
  rewrite (get_not_nullish x "adUnitCode" Hobj), (get_not_nullish slot "impid" Hslot).
  simpl rbind.
  destruct (strict_equals (field x "adUnitCode") (field slot "impid")); [|reflexivity].
  destruct (has_params_get x "zoneId" Hp) as [-> Hzone]; simpl rbind.
  rewrite Hzone; simpl rbind.
  now rewrite (get_not_nullish slot "zoneid" Hslot).
Qed.

Lemma echoed_slots_find_their_requests (env : Env) (request : value) (batch : list value) :
  get request "bidRequests" = Ok (VArr batch) ->
  Forall (fun b => well_formed b = true) batch ->
  unambiguous batch ->
  forall part,
    Forall (fun b => In b batch /\ echoable b = true) part ->
    forall st,
    exists bids st',
      interpretSlots env request (map (slot_entry env) part) st = (Ok bids, st') /\
      Forall2 (fun b bid => field bid "requestId" = field b "bidId" /\
                            field bid "creativeId" = field b "bidId") part bids.
Proof.
  intros Hbatch Hwf Hunique part Hpart.
  rewrite Forall_forall in Hwf.
  induction Hpart as [|b part [Hin Hecho] _ IH]; intros st.
  - exists [], st; split; [reflexivity | constructor].
  - destruct (slot_entry_key env b Hecho) as [Himpid Hzoneid].
    assert (Hself : correlates (slot_entry env b) b = Ok true).
    { rewrite correlates_well_formed by (reflexivity || auto).
      rewrite Himpid, Hzoneid.
      unfold echoable in Hecho; apply andb_true_iff in Hecho as [-> Hzone].
      destruct (param b "zoneId"); try reflexivity;
        apply andb_true_iff in Hzone as [_ Hz]; apply (f_equal Ok); exact Hz. }
    destruct (find_first_total (correlates (slot_entry env b)) batch)
      as (hit & Hfind & Hhit & Hcor).
    { intros x Hx; rewrite correlates_well_formed by (reflexivity || auto).
      eexists; reflexivity. }
    { exists b; auto. }
    pose proof (well_formed_not_nullish hit (Hwf hit Hhit)) as Hobj.
    rewrite correlates_well_formed in Hcor by (reflexivity || auto).
    injection Hcor as Hcor; apply andb_true_iff in Hcor as [Hcode Hzone].
    rewrite Himpid in Hcode; rewrite Hzoneid in Hzone.
    pose proof (Hunique b hit Hin Hhit Hcode Hzone) as Hid.
    destruct (interpretSlot_matched env request (slot_entry env b) hit batch st
                Hbatch Hfind Hobj) as (ad & st1 & Hslot).
    destruct (IH st1) as (bids & st2 & Hrest & Hids).
    exists (bid_of (slot_entry env b) hit ad :: bids), st2.
    simpl map; simpl interpretSlots; unfold bind; rewrite Hslot, Hrest.
    split; [reflexivity|].
    constructor; [split; exact Hid | exact Hids].
Qed.

Lemma buildCdbRequest_slots (env : Env) (context : CriteoContext)
    (batch : list value) (bidderRequest : value) :
  Forall (fun b => well_formed b = true) batch ->
  exists request,
    buildCdbRequest env context batch bidderRequest = Ok request /\
    truthy request = true /\
    field request "slots" = VArr (map (slot_entry env) batch).
Proof.
  intros Hwf.
  unfold buildCdbRequest; rewrite (buildSlots_entries env batch Hwf); simpl rbind.
  destruct (truthy bidderRequest) eqn:Hb.
  - rewrite (get_not_nullish _ "gdprConsent" (truthy_not_nullish _ Hb)); simpl rbind.
    destruct (truthy (field bidderRequest "gdprConsent")) eqn:Hg.
    + rewrite (gdprConsent_block_entry _ Hg); simpl rbind.
      eexists; repeat split; reflexivity.
    + eexists; repeat split; reflexivity.
  - eexists; repeat split; reflexivity.
Qed.

(** X19. A batch sent through the builder, with the slots of the built
    payload sent back as the reply, gives one bid per SlotRequest, in order,
    each with the bidId of its SlotRequest in both ids; this needs
    placement and zone ids that equal themselves, zone ids that are truthy
    or missing, and one bidId per pair of placement and zone. *)
Theorem echoed_request_gives_a_bid_per_slot :
  forall (env : Env) (st st1 : State) (batch : list value) (bidderRequest : value),
    prepare env bidderRequest st = (Ok tt, st1) ->
    delegate (heap st1) = None ->
    Forall (fun b => well_formed b = true) batch ->
    Forall (fun b => echoable b = true) batch ->
    unambiguous batch ->
    exists request bids st2,
      buildRequests env batch bidderRequest st = (Ok request, st1) /\
      interpretResponse env (echo_of request) request st1 = (Ok bids, st2) /\
      Forall2 (fun b bid => field bid "requestId" = field b "bidId" /\
                            field bid "creativeId" = field b "bidId") batch bids.
Proof.
  intros env st st1 batch bidderRequest Hprep Hnone Hwf Hecho Hunique.
  destruct (buildContext_mode env batch (well_formed_has_params batch Hwf))
    as (context & Hcontext & _).
  destruct (buildCdbRequest_slots env context batch bidderRequest Hwf)
    as (data & Hdata & Htruthy & Hslots).
  set (request := VObj [ ("method", VStr "POST");
                         ("url", VStr (buildCdbUrl env context));
                         ("data", data);
                         ("bidRequests", VArr batch) ]).
  assert (Hbuilt : buildRequests env batch bidderRequest st = (Ok request, st1)).
  { unfold buildRequests, bind.
    rewrite Hprep; unfold read_heap; rewrite Hnone.
    unfold lift; rewrite Hcontext, Hdata.
    unfold ret, serverRequest; now rewrite Htruthy. }
  destruct (echoed_slots_find_their_requests env request batch eq_refl Hwf Hunique batch)
    with (st := st1) as (bids & st2 & Hrun & Hids).
  { rewrite Forall_forall in Hecho |- *; intros b Hb; split; [exact Hb | now apply Hecho]. }
  exists request, bids, st2; split; [exact Hbuilt|].
  split; [|exact Hids].
  rewrite (interpretResponse_local env (echo_of request) request st1 Hnone).
  unfold echo_of.
  change (field (field request "data") "slots") with (field data "slots").
  rewrite Hslots.
  unfold body_of; simpl get; simpl rbind.
  unfold js_or; simpl truthy; cbv iota.
  unfold interpretLocally, bind, lift; simpl; exact Hrun.
Qed.

(** Two SlotRequests, one with a zone and one with a network. *)
Lemma echoed_request_gives_a_bid_per_slot_witness :
  exists request bids st2,
    buildRequests plain_env only_second_has_network sample_bidderRequest (fresh empty_heap)
      = (Ok request,
         snd (prepare plain_env sample_bidderRequest (fresh empty_heap))) /\
    interpretResponse plain_env (echo_of request) request
      (snd (prepare plain_env sample_bidderRequest (fresh empty_heap))) = (Ok bids, st2) /\
    map (fun bid => field bid "requestId") bids = [ VStr "bid-1"; VStr "bid-2" ].
Proof.
  destruct (echoed_request_gives_a_bid_per_slot plain_env (fresh empty_heap)
              (snd (prepare plain_env sample_bidderRequest (fresh empty_heap)))
              only_second_has_network sample_bidderRequest)
    as (request & bids & st2 & Hbuilt & Hread & Hids).
  - reflexivity.
  - reflexivity.
  - repeat constructor.
  - repeat constructor.
  - intros b b' Hb Hb' Hcode Hzone.
    destruct Hb as [<- | [<- | []]]; destruct Hb' as [<- | [<- | []]];
      first [reflexivity | discriminate Hcode].
  - exists request, bids, st2; split; [exact Hbuilt | split; [exact Hread|]].
    inversion Hids as [|b1 bid1 rest1 bids1 [Hid1 _] Hrest1]; subst.
    inversion Hrest1 as [|b2 bid2 rest2 bids2 [Hid2 _] Hrest2]; subst.
    inversion Hrest2; subst.
    simpl map; rewrite Hid1, Hid2; reflexivity.
Defined.

(** ** One pass of verification *)

(** X21. Whatever the browser and the cache, two turns of the event loop
    after [tryGetCriteoFastBid] nothing of the verification is pending. *)
Theorem verification_settles_in_two_turns :
  forall (env : Env) (h : Heap) (turns : nat),
    (2 <= turns)%nat ->
    jobs (after_fast_bid env h turns) = [].
Proof.
  intros env h turns Hturns; unfold after_fast_bid.
  destruct turns as [|[|turns]]; try lia; clear Hturns.
  destruct (queues_tryGetCriteoFastBid env (fresh h)) as (pending & Hjobs & Hlen & Hkind).
  set (st0 := snd (tryGetCriteoFastBid env (fresh h))) in *.
  simpl in Hjobs.
  destruct pending as [|j [|j' pending]]; [| |simpl in Hlen; lia].
  - now rewrite drain_idle.
  - simpl drain; unfold run_next at 2; rewrite Hjobs.
    apply Forall_inv in Hkind.
    destruct j as [imported verifier algo hash code callback| |]; try contradiction.
    destruct (queues_import_settled env imported verifier algo hash code callback
                {| heap := heap st0; trace := trace st0; jobs := [] |})
      as (pending' & Hjobs' & Hlen' & Hkind').
    set (st1 := snd (run_job env _ _)) in *.
    simpl in Hjobs'.
    destruct pending' as [|j1 [|j2 pending']]; [| |simpl in Hlen'; lia].
    + unfold run_next; rewrite Hjobs'; now rewrite drain_idle.
    + unfold run_next; rewrite Hjobs'.
      apply Forall_inv in Hkind'.
      destruct j1 as [|outcome callback'|]; try contradiction.
      destruct (queues_verify_settled env outcome callback'
                  {| heap := heap st1; trace := trace st1; jobs := [] |})
        as (pending2 & Hjobs2 & Hlen2 & _).
      destruct pending2; [|simpl in Hlen2; lia].
      simpl in Hjobs2; now rewrite drain_idle.
Qed.

(** The signed sample on a library that accepts it. *)
Lemma verification_settles_in_two_turns_witness :
  jobs (after_fast_bid (verifying_env (Some true)) (cached signed_script) 2) = [].
Proof.
  apply (verification_settles_in_two_turns (verifying_env (Some true))
           (cached signed_script) 2).
  apply le_n.
Defined.

(** X3. On a working crypto library, a cached script whose hash [atob]
    rejects ends the key-import handler before any verdict: nothing is
    logged, run or removed. *)
Theorem undecodable_hash_ends_silently :
  forall (env : Env) (h : Heap) (fastBid : jsstring) (s : SubtleCrypto) (turns : nat),
    Verifier env s ->
    criteo_fast_bid h = Some fastBid ->
    has_hash_header fastBid = true ->
    importKey s FAST_BID_PUBKEY FAST_BID_ALGO = true ->
    atob env (fileEncryptedHash_of fastBid) = None ->
    (1 <= turns)%nat ->
    after_fast_bid env h turns = fresh h.
Proof.
  intros env h fastBid s turns Hver Hcache Hheader Himport Hatob Hturns.
  destruct turns as [|turns]; [lia|].
  unfold after_fast_bid; rewrite (tryGet_cached env h fastBid Hcache Hheader).
  unfold try_catch; rewrite (cryptoVerify_enqueues env s _ _ _ _ _ _ Hver).
  rewrite Himport; unfold enqueue, fresh; simpl.
  unfold run_next; simpl.
  unfold fileEncryptedHash_of in Hatob; rewrite Hatob.
  unfold throw; simpl; now rewrite drain_idle.
Qed.

(** The signed sample in a browser whose [atob] rejects its hash. *)
Lemma undecodable_hash_ends_silently_witness :
  after_fast_bid undecoding_env (cached signed_script) 1 = fresh (cached signed_script).
Proof.
  apply (undecodable_hash_ends_silently undecoding_env (cached signed_script)
           signed_script (constant_subtle (Some true)) 1).
  - apply (StandardVerifier _ _ {| subtle := Some (constant_subtle (Some true));
                                   webkitSubtle := None |}); reflexivity.
  - reflexivity.
  - reflexivity.
  - reflexivity.
  - reflexivity.
  - apply le_n.
Defined.

(** ** The two shapes of a reply *)

(** X20. With no delegate on the page, a reply passed bare is read like the
    same reply wrapped in [{body: ...}], as long as it has no truthy [body]
    of its own. *)
Theorem bare_reply_is_read_like_a_wrapped_one :
  forall (env : Env) (body request : value) (st : State),
    delegate (heap st) = None ->
    nullish body = false ->
    truthy (field body "body") = false ->
    interpretResponse env body request st =
    interpretResponse env (VObj [ ("body", body) ]) request st.
Proof.
  intros env body request st Hnone Hbody Hinner.
  rewrite !(interpretResponse_local env _ request st Hnone).
  unfold body_of; rewrite (get_not_nullish body "body" Hbody); simpl get; simpl rbind.
  unfold js_or; rewrite Hinner.
  destruct (truthy body) eqn:Ht; [reflexivity|].
  unfold interpretLocally, bind, lift; rewrite Ht; reflexivity.
Qed.

(** The example's body passed bare. *)
Lemma bare_reply_is_read_like_a_wrapped_one_witness :
  interpretResponse plain_env (VObj [ ("slots", VArr [ div1_slot ]) ]) bid1_request
    (fresh empty_heap) = (Ok [ bid1_bid ], fresh empty_heap).
Proof.
  rewrite (bare_reply_is_read_like_a_wrapped_one plain_env
             (VObj [ ("slots", VArr [ div1_slot ]) ]) bid1_request (fresh empty_heap));
    reflexivity.
Defined.
